(** * DXR request-handling core ([dxr/app.py]): a shallow embedding

    The handlers of [dxr/app.py] are Flask view functions.  They read an
    immutable configuration, the current request, the artifact store on
    disk and the search index, and they answer with a response or raise.
    The embedding keeps that shape:

    - Python strings are [string], a text standing for its bytes in
      UTF-8; where the library treats a text and a native string apart, as
      [redirect] does, each has its own function; integers are [Z];
      dictionaries whose iteration order reaches the output are association
      lists;
    - exceptions are an inductive type and view functions run in a small
      monad that threads the journal of index round trips and may raise;
    - the parts of the Python standard library, Werkzeug and Flask the
      handlers lean on are modelled in their own modules. *)

From Stdlib Require Import String Ascii List ZArith QArith Qminmax Bool Lia.
From Stdlib Require Import DecimalString DecimalZ Sorted.
Import ListNotations.

Set Warnings "-register-all".


Local Open Scope list_scope.
Local Open Scope Z_scope.
Local Open Scope string_scope.

(** ** Python strings and [posixpath] *)

Module Py.

(** [needle in s] for a one-character needle. *)
Fixpoint contains (c : ascii) (s : string) : bool :=
  match s with
  | EmptyString => false
  | String a rest => if Ascii.eqb a c then true else contains c rest
  end.

(** [s.split(sep)] for a one-character separator: never returns the
    empty list, and keeps empty segments. *)
Fixpoint split (sep : ascii) (s : string) : list string :=
  match s with
  | EmptyString => [EmptyString]
  | String a rest =>
      if Ascii.eqb a sep then EmptyString :: split sep rest
      else match split sep rest with
           | [] => [String a EmptyString]
           | seg :: segs => String a seg :: segs
           end
  end.

(** [s.split(sep, 1)]: the text before the first separator and, when
    there is one, the text after it. *)
Fixpoint split1 (sep : ascii) (s : string) : string * option string :=
  match s with
  | EmptyString => (EmptyString, None)
  | String a rest =>
      if Ascii.eqb a sep then (EmptyString, Some rest)
      else let '(before, after) := split1 sep rest in
           (String a before, after)
  end.

(** [sep.join(parts)]. *)
Fixpoint join (sep : string) (parts : list string) : string :=
  match parts with
  | [] => ""
  | [p] => p
  | p :: rest => p ++ sep ++ join sep rest
  end.

(** [s.startswith(prefix)]. *)
Definition startswith (s prefix : string) : bool := String.prefix prefix s.

(** [s.endswith(c)] for a one-character suffix. *)
Fixpoint endswith (s : string) (c : ascii) : bool :=
  match s with
  | EmptyString => false
  | String a EmptyString => Ascii.eqb a c
  | String _ rest => endswith rest c
  end.

Definition lower_ascii (a : ascii) : ascii :=
  let n := nat_of_ascii a in
  if ((65 <=? n) && (n <=? 90))%nat then ascii_of_nat (n + 32) else a.

(** [s.lower()]. *)
Fixpoint lower (s : string) : string :=
  match s with
  | EmptyString => EmptyString
  | String a rest => String (lower_ascii a) (lower rest)
  end.

(** Whitespace of a byte string: what [str.split()] splits on. *)
Definition is_space (a : ascii) : bool :=
  let n := nat_of_ascii a in (((9 <=? n) && (n <=? 13)) || (n =? 32))%nat.

(** Whitespace of a text string, among the ASCII characters: the
    separators 28 to 31 count as well. *)
Definition is_text_space (a : ascii) : bool :=
  let n := nat_of_ascii a in (((9 <=? n) && (n <=? 13)) || ((28 <=? n) && (n <=? 32)))%nat.

(** [s.lstrip()], for the given whitespace. *)
Fixpoint lstrip (space : ascii -> bool) (s : string) : string :=
  match s with
  | EmptyString => EmptyString
  | String a rest => if space a then lstrip space rest else s
  end.

(** [s.rstrip()]. *)
Fixpoint rstrip (space : ascii -> bool) (s : string) : string :=
  match s with
  | EmptyString => EmptyString
  | String a rest =>
      match rstrip space rest with
      | EmptyString => if space a then EmptyString else String a EmptyString
      | kept => String a kept
      end
  end.

(** [s.strip()]. *)
Definition strip (space : ascii -> bool) (s : string) : string :=
  rstrip space (lstrip space s).

(** [posixpath.join(a, b)]. *)
Definition path_join (a b : string) : string :=
  if startswith b "/" then b
  else if String.eqb a "" || endswith a "/" then a ++ b
  else a ++ "/" ++ b.

(** [posixpath.join(a, b, c)]. *)
Definition path_join3 (a b c : string) : string :=
  path_join (path_join a b) c.

(** [posixpath.basename(p)]: what follows the last slash. *)
Definition basename (p : string) : string := last (split "/" p) "".

(** The component loop of [posixpath.normpath]. *)
Fixpoint normpath_comps (initial_slashes : bool) (comps new_comps : list string)
  : list string :=
  match comps with
  | [] => new_comps
  | comp :: rest =>
      if String.eqb comp "" || String.eqb comp "." then
        normpath_comps initial_slashes rest new_comps
      else if negb (String.eqb comp "..")
              || (negb initial_slashes && match new_comps with [] => true | _ => false end)
              || match new_comps with
                 | [] => false
                 | _ => String.eqb (last new_comps "") ".."
                 end
      then normpath_comps initial_slashes rest (new_comps ++ [comp])%list
      else normpath_comps initial_slashes rest (removelast new_comps)
  end.

(** [posixpath.normpath(path)]. *)
Definition normpath (path : string) : string :=
  if String.eqb path "" then "."
  else
    let initial_slashes : nat :=
      if startswith path "/" then
        if startswith path "//" && negb (startswith path "///") then 2%nat
        else 1%nat
      else 0%nat in
    let comps :=
      normpath_comps (negb (Nat.eqb initial_slashes 0)) (split "/" path) [] in
    let joined := join "/" comps in
    let joined :=
      match initial_slashes with
      | O => joined
      | S O => "/" ++ joined
      | _ => "//" ++ joined
      end in
    if String.eqb joined "" then "." else joined.

(** The exceptions the handlers can meet. *)
Inductive exn : Type :=
| NotFound (description : option string)
| KeyError (key : string)
| IndexError
| ValueError (msg : string)
| BadTerm (reason : string).

(** The outcome of a call: a value, or a raised exception. *)
Inductive result (A : Type) : Type :=
| Ok (a : A)
| Raise (e : exn).
Arguments Ok {A} a.
Arguments Raise {A} e.

Definition rbind {A B} (r : result A) (k : A -> result B) : result B :=
  match r with
  | Ok a => k a
  | Raise e => Raise e
  end.

(** Python values that reach a JSON payload or a template. *)
Inductive value : Type :=
| VNone
| VBool (b : bool)
| VInt (z : Z)
| VStr (s : string)
| VList (items : list value)
| VTuple (items : list value)
| VDict (items : list (string * value)).

(** [d[key]] on an association list: raises [KeyError] when absent. *)
Fixpoint getitem {A} (d : list (string * A)) (key : string) : result A :=
  match d with
  | [] => Raise (KeyError key)
  | (k, v) :: rest => if String.eqb k key then Ok v else getitem rest key
  end.

(** [d.get(key)]. *)
Fixpoint get {A} (d : list (string * A)) (key : string) : option A :=
  match d with
  | [] => None
  | (k, v) :: rest => if String.eqb k key then Some v else get rest key
  end.

(** [key in d]. *)
Definition mem {A} (key : string) (d : list (string * A)) : bool :=
  match get d key with Some _ => true | None => false end.

End Py.

(** ** Werkzeug: the Accept header and URL quoting

    [dxr/app.py] reads [request.accept_mimetypes] (a [MIMEAccept]) and
    builds links with [url_for], which percent-encodes query arguments;
    the request object decodes them again.  Both are library code, modelled
    here after Werkzeug's [datastructures.py] and [urls.py]. *)

Module Werkzeug.
Import Py.

Definition Qlt_bool (a b : Q) : bool := negb (Qle_bool b a).

(** A parsed Accept header: media ranges with their quality, best
    first. *)
Definition Accept : Type := list (string * Q).

(** [(quality, value)] tuples compared as Python compares tuples. *)
Definition item_gtb (x y : string * Q) : bool :=
  if Qeq_bool (snd x) (snd y) then String.ltb (fst y) (fst x)
  else Qlt_bool (snd y) (snd x).

Fixpoint insert_desc (x : string * Q) (l : Accept) : Accept :=
  match l with
  | [] => [x]
  | y :: rest => if item_gtb y x then y :: insert_desc x rest else x :: l
  end.

(** [Accept.__init__]: sort by [(quality, value)], then reverse. *)
Definition MIMEAccept (values : list (string * Q)) : Accept :=
  fold_right insert_desc [] values.

(** [parse_accept_header]: a missing [q] counts as 1, a given one is
    clamped into [0, 1]. *)
Definition parse_accept_header (header : list (string * option Q)) : Accept :=
  MIMEAccept
    (map (fun '(range, q) =>
            (range, match q with
                    | None => 1%Q
                    | Some q => Qmax (Qmin q 1) 0
                    end)) header).

(** [_normalize] of [MIMEAccept._value_matches]; its callers have
    checked that a slash is present. *)
Definition _normalize (x : string) : string * string :=
  let x := lower x in
  if String.eqb x "*" then ("*", "*")
  else let '(type, subtype) := split1 "/" x in
       (type, match subtype with Some s => s | None => "" end).

(** [MIMEAccept._value_matches(value, item)]: [value] comes from the
    application and is validated, [item] comes from the client. *)
Definition _value_matches (value item : string) : result bool :=
  if negb (contains "/" value) then Raise (ValueError "invalid mimetype")
  else
    let '(value_type, value_subtype) := _normalize value in
    if String.eqb value_type "*" && negb (String.eqb value_subtype "*")
    then Raise (ValueError "invalid mimetype (type was wildcard)")
    else if negb (contains "/" item) then Ok false
    else
      let '(item_type, item_subtype) := _normalize item in
      if String.eqb item_type "*" && negb (String.eqb item_subtype "*")
      then Ok false
      else Ok ((String.eqb item_type item_subtype && String.eqb item_subtype "*")
               || (String.eqb value_type value_subtype && String.eqb value_subtype "*")
               || (String.eqb item_type value_type
                   && (String.eqb item_subtype "*"
                       || String.eqb value_subtype "*"
                       || String.eqb item_subtype value_subtype))).

(** [Accept.quality(key)], also reached as [accept[key]]: the quality of
    the first item matching [key], or 0. *)
Fixpoint quality (self : Accept) (key : string) : result Q :=
  match self with
  | [] => Ok 0%Q
  | (item, q) :: rest =>
      rbind (_value_matches key item)
            (fun m => if m then Ok q else quality rest key)
  end.

(** The inner loop of [Accept.best_match] for one server item; it
    breaks at the first client item that cannot beat [best_quality]. *)
Fixpoint best_match_item (server_item : string) (self : Accept)
         (best_quality : Q) (res : option string)
  : result (Q * option string) :=
  match self with
  | [] => Ok (best_quality, res)
  | (client_item, q) :: rest =>
      if Qle_bool q best_quality then Ok (best_quality, res)
      else rbind (_value_matches server_item client_item)
                 (fun m =>
                    if m then best_match_item server_item rest q (Some server_item)
                    else best_match_item server_item rest best_quality res)
  end.

Fixpoint best_match_loop (self : Accept) (matches : list string)
         (best_quality : Q) (res : option string) : result (option string) :=
  match matches with
  | [] => Ok res
  | server_item :: more =>
      rbind (best_match_item server_item self best_quality res)
            (fun '(bq, r) => best_match_loop self more bq r)
  end.

(** [Accept.best_match(matches)] with [default=None]. *)
Definition best_match (self : Accept) (matches : list string) : result (option string) :=
  best_match_loop self matches (-1)%Q None.

(** *** Percent-encoding *)

Definition is_alnum (c : ascii) : bool :=
  let n := nat_of_ascii c in
  ((48 <=? n) && (n <=? 57) || (65 <=? n) && (n <=? 90)
   || (97 <=? n) && (n <=? 122))%nat.

(** [_always_safe]: the bytes [url_quote] keeps unless told
    otherwise. *)
Definition always_safe (c : ascii) : bool :=
  is_alnum c || Ascii.eqb c "_" || Ascii.eqb c "." || Ascii.eqb c "-"
  || Ascii.eqb c "+".

Definition hex_digit (n : nat) : ascii :=
  if (n <? 10)%nat then ascii_of_nat (48 + n) else ascii_of_nat (55 + n).

Definition hex_value (c : ascii) : option nat :=
  let n := nat_of_ascii c in
  if ((48 <=? n) && (n <=? 57))%nat then Some (n - 48)%nat
  else if ((65 <=? n) && (n <=? 70))%nat then Some (n - 55)%nat
  else if ((97 <=? n) && (n <=? 102))%nat then Some (n - 87)%nat
  else None.

Definition quote_byte (c : ascii) : string :=
  let n := nat_of_ascii c in
  String "%" (String (hex_digit (n / 16)) (String (hex_digit (n mod 16)) "")).

(** [url_quote(s, safe=safe, unsafe=unsafe)]: the bytes kept are those
    of [safe] and [_always_safe] that are not in [unsafe]. *)
Fixpoint url_quote (safe unsafe : string) (s : string) : string :=
  match s with
  | EmptyString => EmptyString
  | String c rest =>
      if (always_safe c || contains c safe) && negb (contains c unsafe)
      then String c (url_quote safe unsafe rest)
      else quote_byte c ++ url_quote safe unsafe rest
  end.

(** [s.replace(a, b)] for single characters. *)
Fixpoint replace_char (a b : ascii) (s : string) : string :=
  match s with
  | EmptyString => EmptyString
  | String c rest =>
      String (if Ascii.eqb c a then b else c) (replace_char a b rest)
  end.

(** [url_quote_plus(s)]: as [url_quote] with the space kept and the
    plus sign escaped, then every space turned into a plus sign. *)
Definition url_quote_plus (s : string) : string :=
  replace_char " " "+" (url_quote " " "+" s).

(** [url_unquote_plus(s)]: plus signs become spaces and well-formed
    escapes become their byte; a stray percent sign stays. *)
Fixpoint url_unquote_plus (s : string) : string :=
  match s with
  | EmptyString => EmptyString
  | String c s1 =>
      if Ascii.eqb c "+" then String " " (url_unquote_plus s1)
      else if Ascii.eqb c "%" then
        match s1 with
        | String a (String b s3) =>
            match hex_value a, hex_value b with
            | Some h, Some l =>
                String (ascii_of_nat (16 * h + l)) (url_unquote_plus s3)
            | _, _ => String c (url_unquote_plus s1)
            end
        | _ => String c (url_unquote_plus s1)
        end
      else String c (url_unquote_plus s1)
  end.

(** [url_encode(params)]: [key=value] pairs joined by ampersands. *)
Definition url_encode (params : list (string * string)) : string :=
  join "&" (map (fun '(k, v) => url_quote_plus k ++ "=" ++ url_quote_plus v) params).

Definition decode_pair (pair : string) : string * string :=
  let '(key, val) := split1 "=" pair in
  (url_unquote_plus key,
   url_unquote_plus (match val with Some v => v | None => "" end)).

(** [url_decode(qs)]: the (multi-)dictionary of a query string; empty
    pairs are skipped. *)
Definition url_decode (qs : string) : list (string * string) :=
  map decode_pair
      (filter (fun pair => negb (String.eqb pair "")) (split "&" qs)).

(** *** Text locations: [url_parse], [url_unparse], [iri_to_uri] *)

Fixpoint all_chars (p : ascii -> bool) (s : string) : bool :=
  match s with
  | EmptyString => true
  | String c rest => p c && all_chars p rest
  end.

Definition is_decimal (c : ascii) : bool :=
  let n := nat_of_ascii c in ((48 <=? n) && (n <=? 57))%nat.

(** One character of [_scheme_re], [^[a-zA-Z0-9+-.]+$]: in the class,
    [+-.] is the range from the plus sign to the full stop. *)
Definition scheme_char (c : ascii) : bool :=
  let n := nat_of_ascii c in is_alnum c || ((43 <=? n) && (n <=? 46))%nat.

(** [s] without one final newline. *)
Fixpoint chomp (s : string) : string :=
  match s with
  | EmptyString => EmptyString
  | String c EmptyString => if Ascii.eqb c "010" then EmptyString else s
  | String c rest => String c (chomp rest)
  end.

(** [_scheme_re.match(s)]; the dollar sign also matches before a final
    newline. *)
Definition scheme_re_match (s : string) : bool :=
  (negb (String.eqb s "") && all_chars scheme_char s)
  || (negb (String.eqb (chomp s) "") && all_chars scheme_char (chomp s)).

(** The text before the first character of [stops], and what follows
    from that character on. *)
Fixpoint span_until (stops : string) (s : string) : string * string :=
  match s with
  | EmptyString => (EmptyString, EmptyString)
  | String c rest =>
      if contains c stops then (EmptyString, s)
      else let '(before, after) := span_until stops rest in (String c before, after)
  end.

Record URL : Type := {
  scheme : string;
  netloc : string;
  path : string;
  query : string;
  fragment : string
}.

(** [url_parse(url)]. *)
Definition url_parse (url : string) : result URL :=
  let '(scheme, url) :=
    match split1 ":" url with
    | (before, Some rest) =>
        if negb (String.eqb before "") && scheme_re_match before
           && (String.eqb rest "" || negb (all_chars is_decimal rest))
        then (lower before, rest)
        else ("", url)
    | (_, None) => ("", url)
    end in
  rbind
    (if startswith url "//" then
       let '(netloc, rest) :=
         span_until "/?#" (match url with
                           | String _ (String _ after) => after
                           | _ => url
                           end) in
       if (contains "[" netloc && negb (contains "]" netloc))
          || (contains "]" netloc && negb (contains "[" netloc))
       then Raise (ValueError "Invalid IPv6 URL")
       else Ok (netloc, rest)
     else Ok ("", url))
    (fun '(netloc, url) =>
       let '(url, fragment) :=
         match split1 "#" url with
         | (before, Some after) => (before, after)
         | (_, None) => (url, "")
         end in
       let '(url, query) :=
         match split1 "?" url with
         | (before, Some after) => (before, after)
         | (_, None) => (url, "")
         end in
       Ok {| scheme := scheme; netloc := netloc; path := url;
             query := query; fragment := fragment |}).

(** [url_unparse((scheme, netloc, path, query, fragment))]. *)
Definition url_unparse (u : URL) : string :=
  let url :=
    if negb (String.eqb (netloc u) "")
       || (negb (String.eqb (scheme u) "") && startswith (path u) "/")
    then "//" ++ netloc u
           ++ (if negb (String.eqb (path u) "") && negb (startswith (path u) "/")
               then "/" ++ path u else path u)
    else path u in
  let url := if negb (String.eqb (scheme u) "") then scheme u ++ ":" ++ url else url in
  let url := if negb (String.eqb (query u) "") then url ++ "?" ++ query u else url in
  if negb (String.eqb (fragment u) "") then url ++ "#" ++ fragment u else url.

(** The test of the safe conversion, [ascii_iri.split() == [ascii_iri]]
    for an [iri] that encodes as ASCII: the text is not empty and has no
    whitespace. *)
Definition is_ascii (c : ascii) : bool := (nat_of_ascii c <? 128)%nat.

Definition ascii_word (iri : string) : bool :=
  negb (String.eqb iri "")
  && all_chars (fun c => is_ascii c && negb (is_space c)) iri.

(** [iri_to_uri(iri, safe_conversion=safe_conversion)], as of Werkzeug
    0.9.6.  Under the safe conversion a text that is ASCII and free of
    whitespace is returned as it is.  Otherwise path, query and fragment are percent-encoded, each with
    its own set of bytes to keep.  The authority is carried over as it is:
    its IDNA and user-information encoding ([encode_netloc]) lies outside
    this model. *)
Definition iri_to_uri (safe_conversion : bool) (iri : string) : result string :=
  if safe_conversion && ascii_word iri then Ok iri
  else
    rbind (url_parse iri)
          (fun u =>
             Ok (url_unparse
                   {| scheme := scheme u;
                      netloc := netloc u;
                      path := url_quote "/:~+%" "" (path u);
                      query := url_quote "%&[]:;$*()+,!?*/=" "" (query u);
                      fragment := url_quote "=%&[]:;$()+,!?*/" "" (fragment u) |})).

End Werkzeug.

(** ** Flask: responses, URL building, static files, error handling *)

Module Flask.
Import Py Werkzeug.

Inductive body : Type :=
| Location (url : string)
| Json (payload : value)
| Template (name : string) (context : list (string * value))
| File (filename : string)
| ErrorPage (description : option string).

Record response : Type := { payload : body; status : Z }.

(** [redirect(location)] for a location that is a native string: it
    becomes the [Location] as it is. *)
Definition redirect (location : string) : response :=
  {| payload := Location location; status := 302 |}.

(** [redirect(location)] for a location that is a text (unicode) string:
    Werkzeug passes it through [iri_to_uri(location, safe_conversion=True)]
    first. *)
Definition redirect_text (location : string) : result response :=
  rbind (iri_to_uri true location) (fun uri => Ok (redirect uri)).

(** [jsonify(d)]. *)
Definition jsonify (d : value) : response :=
  {| payload := Json d; status := 200 |}.

(** [render_template(name, **context)]. *)
Definition render_template (name : string) (context : list (string * value))
  : response :=
  {| payload := Template name context; status := 200 |}.

(** [return rv, code]: a view's response with an explicit status. *)
Definition with_status (rv : response) (code : Z) : response :=
  {| payload := payload rv; status := code |}.

(** The routes of the blueprint that [url_for] is asked to build. *)
Inductive endpoint : Type := ep_search | ep_browse | ep_parallel.

Definition rule_suffix (ep : endpoint) : string :=
  match ep with
  | ep_search => "/search"
  | ep_browse => "/source/"
  | ep_parallel => "/parallel/"
  end.

(** [url_for('.' + ep, tree=tree, path=path, **query_args)] for a
    blueprint mounted at [url_prefix]: the rule filled in, then the
    arguments the rule does not name as a query string. *)
Definition url_for (url_prefix : string) (ep : endpoint) (tree : string)
           (path : option string) (query_args : list (string * string)) : string :=
  url_prefix ++ "/" ++ url_quote "/:" "" tree ++ rule_suffix ep
    ++ match path with Some p => url_quote "/:" "" p | None => "" end
    ++ match query_args with
       | [] => ""
       | _ => "?" ++ url_encode query_args
       end.

(** [safe_join(directory, filename)]. *)
Definition safe_join (directory filename : string) : result string :=
  let filename := normpath filename in
  if startswith filename "/" || String.eqb filename ".."
     || startswith filename "../"
  then Raise (NotFound None)
  else Ok (path_join directory filename).

(** [send_from_directory(directory, filename)], over the artifact
    store's [isfile]. *)
Definition send_from_directory (isfile : string -> bool)
           (directory filename : string) : result response :=
  rbind (safe_join directory filename)
        (fun filename =>
           if negb (isfile filename) then Raise (NotFound None)
           else Ok {| payload := File filename; status := 200 |}).

(** What the client gets once a view has returned or raised: an
    [HTTPException] such as [NotFound] is itself a response; any other
    exception is an unhandled failure (500). *)
Inductive outcome : Type :=
| Responded (r : response)
| Unhandled (e : exn).

Definition handle_user_exception (r : result response) : outcome :=
  match r with
  | Ok rv => Responded rv
  | Raise (NotFound d) => Responded {| payload := ErrorPage d; status := 404 |}
  | Raise e => Unhandled e
  end.

End Flask.

(** ** [dxr.utils] *)

Module Utils.
Import Py.

Definition is_digit (c : ascii) : bool :=
  let n := nat_of_ascii c in ((48 <=? n) && (n <=? 57))%nat.

Fixpoint digits (s : string) (acc : Z) : option Z :=
  match s with
  | EmptyString => Some acc
  | String c rest =>
      if is_digit c
      then digits rest (10 * acc + (Z.of_nat (nat_of_ascii c) - 48))
      else None
  end.

(** [int(s)] in base 10 for a text [s], as the values of a request
    are: surrounding whitespace is dropped; what is left is an optional sign
    and at least one digit.  (Digits and whitespace beyond ASCII are not
    modelled.) *)
Definition int (s : string) : option Z :=
  match strip is_text_space s with
  | EmptyString => None
  | String c rest =>
      if Ascii.eqb c "-" then
        match rest with
        | EmptyString => None
        | _ => option_map Z.opp (digits rest 0)
        end
      else if Ascii.eqb c "+" then
        match rest with
        | EmptyString => None
        | _ => digits rest 0
        end
      else digits (String c rest) 0
  end.

(** Modelled from the spec: [non_negative_int] of [dxr/utils.py], which
    is not part of the sources at hand.  The specification gives the
    normalized limit as [min(max(L, 0) if parseable else 100, 1000)] and the
    normalized offset as [O] if [O] is a non-negative integer, else 0: a value
    that parses as an integer is returned, raised to 0 when it is negative; a
    missing or unparsable one falls back to the default. *)
Definition non_negative_int (s : option string) (default : Z) : Z :=
  match s with
  | None => default
  | Some s =>
      match int s with
      | Some i => Z.max i 0
      | None => default
      end
  end.

End Utils.

(** ** [dxr.app]: the view functions *)

Module App.
Import Py Werkzeug Flask Utils.

(** The configuration written by [dxr-build]: [app.config]. *)
Record Config : Type := {
  WWW_ROOT : string;
  DEFAULT_TREE : string;
  TREES : list (string * string);
  ES_ALIASES : list (string * string);
  GENERATED_DATE : string;
  GOOGLE_ANALYTICS_KEY : string
}.

(** One search hit as [Query.results] yields it: icon, path, and the
    matching lines with their numbers. *)
Definition SearchResult : Type := string * string * list (Z * string).

(** The [_source] of one FILE document of the index. *)
Record FolderDoc : Type := {
  f_name : string;
  f_is_folder : bool;
  f_modified : option string;
  f_size : option Z;
  f_path : list string
}.

(** Modelled from the spec: the [Query] class of [dxr/query.py], which is
    not part of the sources at hand.  A query answers a direct-result
    request with one (path, line) pair or nothing, and a bounded search
    with a page of results or a [BadTerm] failure carrying a reason.  Both
    are round trips to the index, and either may fail. *)
Record Query : Type := {
  direct_result : result (option (string * Z));
  results : Z -> Z -> result (list SearchResult)
}.

(** The application object with what the views reach through it: the
    configuration, the index connection [app.es], the artifact store on
    disk, and the helpers imported from other modules of the package.
    [es_folder] gives the hits the index answers a folder query with; a
    folder query that fails on the way is not part of this model. *)
Record Application : Type := {
  config : Config;
  instance_path : string;
  es_query : string -> string -> bool -> Query;
  es_folder : string -> string -> list FolderDoc;
  isdir : string -> bool;
  isfile : string -> bool;
  filter_menu_items : value;
  linked_pathname : string -> string -> value;
  icon : string -> string;
  decode_es_datetime : string -> value
}.

(** The current request: [request.values] and
    [request.accept_mimetypes]. *)
Record Request : Type := {
  values : list (string * string);
  accept_mimetypes : Accept
}.

(** *** Views run in a monad that journals index round trips *)

Inductive event : Type :=
| DirectResultAsked (answer : result (option (string * Z)))
| ResultsAsked (offset limit : Z) (answer : result (list SearchResult))
| FolderAsked (index folder : string) (answer : list FolderDoc).

Definition M (A : Type) : Type := list event -> result A * list event.

Definition ret {A} (a : A) : M A := fun j => (Ok a, j).

Definition raise {A} (e : exn) : M A := fun j => (Raise e, j).

Definition lift {A} (r : result A) : M A := fun j => (r, j).

Definition bind {A B} (m : M A) (k : A -> M B) : M B :=
  fun j => match m j with
           | (Ok a, j') => k a j'
           | (Raise e, j') => (Raise e, j')
           end.

(** [try: m  except ...: handler]; [handler] answers [None] for the
    exceptions the clause does not name. *)
Definition try_except {A} (m : M A) (handler : exn -> option (M A)) : M A :=
  fun j => match m j with
           | (Ok a, j') => (Ok a, j')
           | (Raise e, j') =>
               match handler e with
               | Some h => h j'
               | None => (Raise e, j')
               end
           end.

Notation "x <- m ;; k" := (bind m (fun x => k))
  (at level 61, m at next level, right associativity).

(** A view run from an empty journal. *)
Definition run {A} (m : M A) : result A * list event := m [].

Definition call_direct_result (query : Query) : M (option (string * Z)) :=
  fun j => let answer := direct_result query in
           (answer, j ++ [DirectResultAsked answer])%list.

Definition call_results (query : Query) (offset limit : Z)
  : M (list SearchResult) :=
  fun j => let answer := results query offset limit in
           (answer, j ++ [ResultsAsked offset limit answer])%list.

(** [current_app.es.search({... 'term': {'folder': path} ...},
    index=index, doc_type=FILE, size=10000)['hits']['hits']], each hit
    reduced to its [_source]. *)
Definition call_folder (app : Application) (index folder : string)
  : M (list FolderDoc) :=
  fun j => let answer := es_folder app index folder in
           (Ok answer, j ++ [FolderAsked index folder answer])%list.

(** ['%i' % n]. *)
Definition format_int (n : Z) : string := NilZero.string_of_int (Z.to_int n).

(** [index()].  [url_for] returns a native string, which [redirect]
    takes as it is. *)
Definition index (app : Application) : M response :=
  ret (redirect (url_for (WWW_ROOT (config app)) ep_browse
                         (DEFAULT_TREE (config app)) None [])).

(** [_request_wants_json()]. *)
Definition _request_wants_json (req : Request) : result bool :=
  rbind (best_match (accept_mimetypes req) ["application/json"; "text/html"])
        (fun best =>
           match best with
           | Some best =>
               if String.eqb best "application/json" then
                 rbind (quality (accept_mimetypes req) best)
                       (fun q_best =>
                          rbind (quality (accept_mimetypes req) "text/html")
                                (fun q_html => Ok (Qlt_bool q_html q_best)))
               else Ok false
           | None => Ok false
           end).

(** [_tree_tuples(trees, tree, query_text, is_case_sensitive)]. *)
Definition _tree_tuples (app : Application) (trees : list (string * string))
           (tree query_text : string) (is_case_sensitive : bool) : list value :=
  map (fun '(t, description) =>
         VTuple [VStr t;
                 VStr (url_for (WWW_ROOT (config app)) ep_search t None
                               (("q", query_text)
                                  :: (if is_case_sensitive
                                      then [("case", "true")] else [])));
                 VStr description])
      trees.

Definition lines_value (lines : list (Z * string)) : value :=
  VList (map (fun '(nb, l) => VDict [("line_number", VInt nb); ("line", VStr l)])
             lines).

(** [_search_json(query, tree, query_text, is_case_sensitive, offset,
    limit, config)]. *)
Definition _search_json (app : Application) (query : Query)
           (tree query_text : string) (is_case_sensitive : bool)
           (offset limit : Z) (config : Config) : M response :=
  try_except
    (found <- call_results query offset limit ;;
     let results :=
       map (fun '(icon, path, lines) =>
              VDict [("icon", VStr icon); ("path", VStr path);
                     ("lines", lines_value lines)]) found in
     ret (jsonify
            (VDict [("wwwroot", VStr (WWW_ROOT config));
                    ("tree", VStr tree);
                    ("results", VList results);
                    ("tree_tuples",
                     VList (_tree_tuples app (TREES config) tree query_text
                                         is_case_sensitive))])))
    (fun exc =>
       match exc with
       | BadTerm reason =>
           Some (ret (with_status
                        (jsonify (VDict [("error_html", VStr reason);
                                         ("error_level", VStr "warning")]))
                        400))
       | _ => None
       end).

Definition opt_eqb (v : option string) (s : string) : bool :=
  match v with
  | Some v => String.eqb v s
  | None => false
  end.

(** The first statement of [_search_html]:
    [request.values.get('redirect') == 'true']. *)
Definition should_redirect (req : Request) : bool :=
  opt_eqb (get (values req) "redirect") "true".

(** The dictionary [template_vars] of [_search_html], shared by its
    two templates. *)
Definition template_vars (app : Application) (config : Config)
           (tree query_text : string) (is_case_sensitive : bool)
  : list (string * value) :=
  [("filters", filter_menu_items app);
   ("generated_date", VStr (GENERATED_DATE config));
   ("google_analytics_key", VStr (GOOGLE_ANALYTICS_KEY config));
   ("is_case_sensitive", VBool is_case_sensitive);
   ("query", VStr query_text);
   ("search_url",
    VStr (url_for (WWW_ROOT config) ep_search tree None
                  [("q", query_text); ("redirect", "false")]));
   ("tree", VStr tree);
   ("tree_tuples",
    VList (_tree_tuples app (TREES config) tree query_text is_case_sensitive));
   ("wwwroot", VStr (WWW_ROOT config))].

(** [_search_html(query, tree, query_text, is_case_sensitive, offset,
    limit, config)].  The location of the direct-result redirect is built
    with the [%] operator from text (the tree, the path and the query text),
    so it is a text string and [redirect] converts it. *)
Definition _search_html (app : Application) (req : Request) (query : Query)
           (tree query_text : string) (is_case_sensitive : bool)
           (offset limit : Z) (config : Config) : M response :=
  let normal_search : M response :=
    let template_vars :=
      template_vars app config tree query_text is_case_sensitive in
    try_except
      (found <- call_results query offset limit ;;
       let results :=
         map (fun '(icon, path, lines) =>
                VTuple [VStr icon; VStr path;
                        VList (map (fun '(nb, l) => VTuple [VInt nb; VStr l]) lines)])
             found in
       ret (render_template "search.html"
                            (("results", VList results) :: template_vars)))
      (fun exc =>
         match exc with
         | BadTerm reason =>
             Some (ret (with_status
                          (render_template "error.html"
                             (("error_html", VStr reason) :: template_vars))
                          400))
         | _ => None
         end) in
  if should_redirect req then
    result <- call_direct_result query ;;
    match result with
    | Some (path, line) =>
        lift (redirect_text
                (WWW_ROOT config ++ "/" ++ tree ++ "/source/" ++ path
                   ++ "?from=" ++ query_text
                   ++ (if is_case_sensitive then "&case=true" else "")
                   ++ "#" ++ format_int line))
    | None => normal_search
    end
  else normal_search.

(** The normalized parameters of a search request. *)
Record Params : Type := {
  query_text : string;
  offset : Z;
  limit : Z;
  is_case_sensitive : bool
}.

(** "Normalize querystring params" in [search]. *)
Definition normalize (req : list (string * string)) : Params :=
  {| query_text := match get req "q" with Some q => q | None => "" end;
     offset := non_negative_int (get req "offset") 0;
     limit := Z.min (non_negative_int (get req "limit") 100) 1000;
     is_case_sensitive := opt_eqb (get req "case") "true" |}.

(** [search(tree)]. *)
Definition search (app : Application) (req : Request) (tree : string)
  : M response :=
  let config := config app in
  if negb (mem tree (TREES config))
  then raise (NotFound (Some ("No such tree as " ++ tree)))
  else
    let p := normalize (values req) in
    index <- lift (getitem (ES_ALIASES config) tree) ;;
    let query := es_query app index (query_text p) (is_case_sensitive p) in
    wants_json <- lift (_request_wants_json req) ;;
    if wants_json
    then _search_json app query tree (query_text p) (is_case_sensitive p)
                      (offset p) (limit p) config
    else _search_html app req query tree (query_text p) (is_case_sensitive p)
                      (offset p) (limit p) config.

(** [_tree_folder(tree)]. *)
Definition _tree_folder (app : Application) (tree : string) : string :=
  path_join3 (instance_path app) "trees" tree.

(** [_html_file_path(tree_folder, url_path)]. *)
Definition _html_file_path (app : Application) (tree_folder url_path : string)
  : result string :=
  if isdir app (path_join tree_folder url_path)
  then Raise (NotFound None)
  else Ok (url_path ++ ".html").

(** The breadcrumb loop of [browse]: [appended_paths] grows by one
    entry per element of [data_paths]. *)
Fixpoint breadcrumb_loop (data_paths appended_paths : list string) : list string :=
  match data_paths with
  | [] => appended_paths
  | paths :: rest =>
      breadcrumb_loop rest
        match appended_paths with
        | [] => (appended_paths ++ [paths])%list
        | _ => (appended_paths
                  ++ [(last appended_paths "" ++ "/" ++ paths)%string])%list
        end
  end.

(** [data_path] as [browse] hands it to the folder template. *)
Definition data_path (path : string) : list string :=
  breadcrumb_loop (split "/" path) [].

(** [f['path'][0]]. *)
Definition first_path (f : FolderDoc) : result string :=
  match f_path f with
  | [] => Raise IndexError
  | p :: _ => Ok p
  end.

(** One row of [files_and_folders] in the folder template. *)
Definition folder_row (app : Application) (tree : string) (f : FolderDoc)
  : result value :=
  rbind (first_path f)
        (fun p =>
           Ok (VTuple
                 [VStr (if f_is_folder f then "folder" else icon app (f_name f));
                  VStr (f_name f);
                  match f_modified f with
                  | Some m => decode_es_datetime app m
                  | None => VNone
                  end;
                  match f_size f with Some n => VInt n | None => VNone end;
                  VStr (url_for (WWW_ROOT (config app)) ep_browse tree (Some p) [])])).

Fixpoint folder_rows (app : Application) (tree : string) (fs : list FolderDoc)
  : result (list value) :=
  match fs with
  | [] => Ok []
  | f :: rest =>
      rbind (folder_row app tree f)
            (fun row => rbind (folder_rows app tree rest)
                              (fun rows => Ok (row :: rows)))
  end.

(** The [except NotFound] branch of [browse]: the folder listing served
    out of the index. *)
Definition browse_folder (app : Application) (tree path : string) : M response :=
  let config := config app in
  index <- lift (getitem (ES_ALIASES config) tree) ;;
  files_and_folders <- call_folder app index path ;;
  match files_and_folders with
  | [] => raise (NotFound None)
  | _ =>
      let appended_paths := data_path path in
      rows <- lift (folder_rows app tree files_and_folders) ;;
      ret (render_template "folder.html"
             [("wwwroot", VStr (WWW_ROOT config));
              ("tree", VStr tree);
              ("tree_tuples",
               VList (map (fun '(t_name, t_description) =>
                             VTuple [VStr t_name;
                                     VStr (url_for (WWW_ROOT config) ep_parallel
                                                   t_name (Some path) []);
                                     VStr t_description])
                          (TREES config)));
              ("generated_date", VStr (GENERATED_DATE config));
              ("google_analytics_key", VStr (GOOGLE_ANALYTICS_KEY config));
              ("paths_and_names", linked_pathname app path tree);
              ("filters", filter_menu_items app);
              ("should_autofocus_query", VBool (String.eqb path ""));
              ("name", VStr (if String.eqb (basename path) "" then tree
                             else basename path));
              ("path", VStr path);
              ("data_path", VList (map VStr appended_paths));
              ("files_and_folders", VList rows)])
  end.

(** The [try] block of [browse]: the prerendered page, if there is
    one. *)
Definition browse_file (app : Application) (tree path : string) : result response :=
  let tree_folder := _tree_folder app tree in
  rbind (_html_file_path app tree_folder path)
        (send_from_directory (isfile app) tree_folder).

(** [browse(tree, path='')]. *)
Definition browse (app : Application) (tree path : string) : M response :=
  try_except
    (lift (browse_file app tree path))
    (fun exc =>
       match exc with
       | NotFound _ => Some (browse_folder app tree path)
       | _ => None
       end).


(** [parallel(tree, path='')].  [str.format] on a native template
    gives a native string, for arguments that are ASCII; [redirect] takes it
    as it is. *)
Definition parallel (app : Application) (tree path : string) : M response :=
  let tree_folder := _tree_folder app tree in
  disk_path <- try_except
                 (p <- lift (_html_file_path app tree_folder path) ;;
                  ret (Some p))
                 (fun exc =>
                    match exc with
                    | NotFound _ => Some (ret None)
                    | _ => None
                    end) ;;
  let www_root := WWW_ROOT (config app) in
  if match disk_path with
     | None => true
     | Some p => isfile app (path_join tree_folder p)
     end
  then ret (redirect (www_root ++ "/" ++ tree ++ "/source/" ++ path))
  else ret (redirect (www_root ++ "/" ++ tree ++ "/source/")).

(** What the client receives for a view: Flask turns a raised
    [NotFound] into a 404 page and lets anything else through as an
    unhandled failure. *)
Definition serve (view : M response) : outcome :=
  handle_user_exception (fst (run view)).

(** The index round trips a view makes. *)
Definition journal (view : M response) : list event := snd (run view).

End App.

(** ** Specification-side notions *)

Module Spec.
Import Py Werkzeug Flask Utils App.

(** The partial paths of a breadcrumb trail as the specification words
    them: entry [i] is the join of the first [i + 1] segments. *)
Definition partial_paths (segments : list string) : list string :=
  map (fun i => join "/" (firstn (S i) segments)) (seq 0 (length segments)).



(** "Parses as an integer". *)
Definition integer (raw : option string) : option Z :=
  match raw with
  | Some s => int s
  | None => None
  end.

(** The number a string of decimal digits stands for, read left to
    right onto [acc]. *)
Fixpoint uint_value (d : Decimal.uint) (acc : Z) : Z :=
  match d with
  | Decimal.Nil => acc
  | Decimal.D0 l => uint_value l (10 * acc + 0)
  | Decimal.D1 l => uint_value l (10 * acc + 1)
  | Decimal.D2 l => uint_value l (10 * acc + 2)
  | Decimal.D3 l => uint_value l (10 * acc + 3)
  | Decimal.D4 l => uint_value l (10 * acc + 4)
  | Decimal.D5 l => uint_value l (10 * acc + 5)
  | Decimal.D6 l => uint_value l (10 * acc + 6)
  | Decimal.D7 l => uint_value l (10 * acc + 7)
  | Decimal.D8 l => uint_value l (10 * acc + 8)
  | Decimal.D9 l => uint_value l (10 * acc + 9)
  end.

(** The weight a client gives a media type: the quality of the first
    entry of its Accept header, best first, that matches; none when no
    entry matches. *)
Fixpoint first_match (self : Accept) (key : string) : option Q :=
  match self with
  | [] => None
  | (item, q) :: rest =>
      match _value_matches key item with
      | Ok true => Some q
      | _ => first_match rest key
      end
  end.

Definition weight (self : Accept) (key : string) : Q :=
  match first_match self key with Some q => q | None => 0%Q end.

(** The parameters of the request a client makes when it follows a
    link: the fragment is cut off, and what follows the first question
    mark is decoded as a query string. *)
Definition link_params (url : string) : list (string * string) :=
  match split1 "?" (fst (split1 "#" url)) with
  | (_, Some qs) => url_decode qs
  | (_, None) => []
  end.

(** A server item Werkzeug accepts as a media type never makes the
    look-ups raise. *)
Definition never_raises (server_item : string) : Prop :=
  forall item, exists b, _value_matches server_item item = Ok b.

(** Entries in the order Werkzeug keeps them: no later entry has a
    higher quality. *)
Definition ge_quality (x y : string * Q) : Prop := (snd y <= snd x)%Q.

(** A header as [parse_accept_header] returns it: best first, with
    qualities that are not negative. *)
Definition well_formed (self : Accept) : Prop :=
  StronglySorted ge_quality self /\ Forall (fun x => (0 <= snd x)%Q) self.

(** What holds of every byte, checked byte by byte: a byte of
    [_always_safe] is neither the percent sign nor the space, a letter or
    digit is not the plus sign either, and the two hexadecimal digits of an
    escape are letters or digits that decode to the byte. *)
Definition byte_ok (a : ascii) : bool :=
  let n := nat_of_ascii a in
  let h := hex_digit (n / 16) in
  let l := hex_digit (n mod 16) in
  (negb (always_safe a)
   || (negb (Ascii.eqb a "%") && negb (Ascii.eqb a " ")))
  && (negb (is_alnum a) || negb (Ascii.eqb a "+"))
  && is_alnum h && is_alnum l
  && match hex_value h, hex_value l with
     | Some x, Some y => Ascii.eqb (ascii_of_nat (16 * x + y)) a
     | _, _ => false
     end.

(** The query arguments [_tree_tuples] gives [url_for]. *)
Definition link_args (text : string) (case : bool) : list (string * string) :=
  ("q", text) :: (if case then [("case", "true")] else []).

(** The link without its query string. *)
Definition link_base (root t : string) : string :=
  root ++ "/" ++ url_quote "/:" "" t ++ "/search".


(** One row of the folder template for an index entry that carries its
    path. *)
Definition row_of (app : Application) (tree : string) (f : FolderDoc) : value :=
  VTuple [VStr (if f_is_folder f then "folder" else icon app (f_name f));
          VStr (f_name f);
          match f_modified f with
          | Some m => decode_es_datetime app m
          | None => VNone
          end;
          match f_size f with Some n => VInt n | None => VNone end;
          VStr (url_for (WWW_ROOT (config app)) ep_browse tree
                        (Some (hd "" (f_path f))) [])].

(** A page of hits as the JSON envelope carries it. *)
Definition json_results (found : list SearchResult) : list value :=
  map (fun '(icon, path, lines) =>
         VDict [("icon", VStr icon); ("path", VStr path);
                ("lines", lines_value lines)]) found.

(** The same page as the search template receives it. *)
Definition html_results (found : list SearchResult) : list value :=
  map (fun '(icon, path, lines) =>
         VTuple [VStr icon; VStr path;
                 VList (map (fun '(nb, l) => VTuple [VInt nb; VStr l]) lines)])
      found.

(** The variables of the folder template, given its rows. *)
Definition folder_context (app : Application) (tree path : string)
           (rows : list value) : list (string * value) :=
  [("wwwroot", VStr (WWW_ROOT (config app)));
   ("tree", VStr tree);
   ("tree_tuples",
    VList (map (fun '(t_name, t_description) =>
                  VTuple [VStr t_name;
                          VStr (url_for (WWW_ROOT (config app)) ep_parallel
                                        t_name (Some path) []);
                          VStr t_description])
               (TREES (config app))));
   ("generated_date", VStr (GENERATED_DATE (config app)));
   ("google_analytics_key", VStr (GOOGLE_ANALYTICS_KEY (config app)));
   ("paths_and_names", linked_pathname app path tree);
   ("filters", filter_menu_items app);
   ("should_autofocus_query", VBool (String.eqb path ""));
   ("name", VStr (if String.eqb (basename path) "" then tree else basename path));
   ("path", VStr path);
   ("data_path", VList (map VStr (data_path path)));
   ("files_and_folders", VList rows)].

(** What [_search_json] makes of the index's answer to the bounded
    search. *)
Definition json_outcome (app : Application) (cfg : Config) (tree text : string)
           (case : bool) (answer : result (list SearchResult)) : result response :=
  match answer with
  | Ok found =>
      Ok (jsonify
            (VDict [("wwwroot", VStr (WWW_ROOT cfg));
                    ("tree", VStr tree);
                    ("results", VList (json_results found));
                    ("tree_tuples",
                     VList (_tree_tuples app (TREES cfg) tree text case))]))
  | Raise (BadTerm reason) =>
      Ok (with_status
            (jsonify (VDict [("error_html", VStr reason);
                             ("error_level", VStr "warning")])) 400)
  | Raise e => Raise e
  end.

(** What [_search_html] makes of it. *)
Definition html_outcome (app : Application) (cfg : Config) (tree text : string)
           (case : bool) (answer : result (list SearchResult)) : result response :=
  match answer with
  | Ok found =>
      Ok (render_template "search.html"
            (("results", VList (html_results found))
               :: template_vars app cfg tree text case))
  | Raise (BadTerm reason) =>
      Ok (with_status
            (render_template "error.html"
               (("error_html", VStr reason)
                  :: template_vars app cfg tree text case)) 400)
  | Raise e => Raise e
  end.

(** One [key=value] pair of a query string. *)
Definition encode_pair (kv : string * string) : string :=
  url_quote_plus (fst kv) ++ "=" ++ url_quote_plus (snd kv).

(** None of the characters of [chars] occurs in [s]. *)
Definition avoids (chars s : string) : bool :=
  forallb (fun c => negb (contains c s)) (list_ascii_of_string chars).

(** The parameters the direct-result redirect means to hand to the
    page it points at. *)
Definition redirect_args (text : string) (case : bool) : list (string * string) :=
  ("from", text) :: (if case then [("case", "true")] else []).

(** A location that is a path on the site itself: it begins with
    exactly one slash. *)
Definition site_path (location : string) : bool :=
  startswith location "/" && negb (startswith location "//").

(** The text [_search_html] formats as the location of the direct-result
    redirect. *)
Definition direct_target (cfg : Config) (tree path text : string) (case : bool)
           (line : Z) : string :=
  WWW_ROOT cfg ++ "/" ++ tree ++ "/source/" ++ path ++ "?from=" ++ text
    ++ (if case then "&case=true" else "") ++ "#" ++ format_int line.

End Spec.

(** ** A small deployment to run the views on *)

Module Demo.
Import Py Werkzeug Flask Utils App.

Definition config : Config :=
  {| WWW_ROOT := "/dxr";
     DEFAULT_TREE := "code";
     TREES := [("code", "The code"); ("docs", "The manual")];
     ES_ALIASES := [("code", "dxr_code"); ("docs", "dxr_docs")];
     GENERATED_DATE := "2015-01-01";
     GOOGLE_ANALYTICS_KEY := "" |}.

(** The index knows one definition of [main], rejects the term
    [regexp:(] and finds one line for everything else. *)
Definition query (index text : string) (case : bool) : Query :=
  {| direct_result :=
       if String.eqb text "main" then Ok (Some ("src/main.c", 12)) else Ok None;
     results := fun offset limit =>
       if String.eqb text "regexp:(" then Raise (BadTerm "Invalid regexp")
       else Ok [("c", "src/main.c", [(12, "int main(void)")])] |}.

Definition src_folder : FolderDoc :=
  {| f_name := "src"; f_is_folder := true; f_modified := None;
     f_size := None; f_path := ["src"] |}.

Definition readme : FolderDoc :=
  {| f_name := "README"; f_is_folder := false; f_modified := Some "2015-01-01T00:00:00";
     f_size := Some 120; f_path := ["README"] |}.

(** The tree [code] holds a folder [src] with [main.c], and a
    [README]; only files have a prerendered page on disk. *)
Definition app : Application :=
  {| App.config := config;
     instance_path := "/srv/dxr";
     es_query := query;
     es_folder := fun index folder =>
       if String.eqb index "dxr_code" && String.eqb folder ""
       then [src_folder; readme] else [];
     isdir := fun p =>
       String.eqb p "/srv/dxr/trees/code/" || String.eqb p "/srv/dxr/trees/code/src";
     isfile := fun p =>
       String.eqb p "/srv/dxr/trees/code/README.html"
       || String.eqb p "/srv/dxr/trees/code/src/main.c.html";
     filter_menu_items := VList [];
     linked_pathname := fun path tree => VList [];
     icon := fun name => "unknown";
     decode_es_datetime := VStr |}.

(** A browser's request: it prefers HTML and accepts anything. *)
Definition browser (vals : list (string * string)) : Request :=
  {| values := vals;
     accept_mimetypes :=
       parse_accept_header [("text/html", None); ("*/*", Some (8 # 10))] |}.

(** A script's request: it asks for JSON only. *)
Definition script (vals : list (string * string)) : Request :=
  {| values := vals;
     accept_mimetypes := parse_accept_header [("application/json", None)] |}.

(** The same deployment with an index that cannot be reached. *)
Definition app_without_index : Application :=
  {| App.config := config;
     instance_path := "/srv/dxr";
     es_query := fun index text case =>
       {| direct_result := Raise (ValueError "No JSON object could be decoded");
          results := fun offset limit => Raise (ValueError "No JSON object could be decoded") |};
     es_folder := fun index folder => [];
     isdir := isdir app;
     isfile := isfile app;
     filter_menu_items := VList [];
     linked_pathname := fun path tree => VList [];
     icon := fun name => "unknown";
     decode_es_datetime := VStr |}.

End Demo.

(** * Properties *)

Import Py Werkzeug Flask Utils App Spec.

(** ** Breadcrumbs *)

Lemma append_assoc (a b c : string) : (a ++ b) ++ c = a ++ (b ++ c).
Proof. induction a as [|x a IH]; cbn; [reflexivity|now rewrite IH]. Qed.

Section Breadcrumbs.

Lemma join_snoc (l : list string) (p : string) :
  l <> [] -> join "/" (l ++ [p]) = join "/" l ++ "/" ++ p.
Proof.
  induction l as [|a l IH]; [congruence|intros _].
  destruct l as [|b l]; [reflexivity|].
  change (join "/" ((a :: b :: l) ++ [p]))
    with (a ++ "/" ++ join "/" ((b :: l) ++ [p])).
  rewrite IH by discriminate.
  change (join "/" (a :: b :: l)) with (a ++ "/" ++ join "/" (b :: l)).
  now rewrite !append_assoc.
Qed.

Lemma partial_paths_snoc (l : list string) (p : string) :
  partial_paths (l ++ [p]) = (partial_paths l ++ [join "/" (l ++ [p])])%list.
Proof.
  unfold partial_paths.
  rewrite length_app, Nat.add_comm; cbn [length Nat.add].
  rewrite seq_S, map_app; cbn [map Nat.add].
  f_equal.
  - apply map_ext_in; intros i Hi; apply in_seq in Hi.
    rewrite firstn_app.
    replace (S i - length l)%nat with 0%nat by lia.
    now rewrite firstn_0, app_nil_r.
  - now rewrite firstn_all2 by (rewrite length_app; cbn; lia).
Qed.

Lemma partial_paths_last (l : list string) :
  l <> [] -> last (partial_paths l) "" = join "/" l.
Proof.
  intros H. destruct (exists_last H) as [l' [p ->]].
  now rewrite partial_paths_snoc, last_last.
Qed.

Lemma partial_paths_nil_iff (l : list string) : partial_paths l = [] <-> l = [].
Proof.
  unfold partial_paths; split; intros H.
  - apply (f_equal (@length _)) in H.
    rewrite length_map, length_seq in H. now apply length_zero_iff_nil.
  - now subst.
Qed.

Lemma breadcrumb_loop_partial_paths (rest seen : list string) :
  breadcrumb_loop rest (partial_paths seen) = partial_paths (seen ++ rest).
Proof.
  revert seen; induction rest as [|p rest IH]; intros seen.
  - now rewrite app_nil_r.
  - cbn [breadcrumb_loop].
    replace (seen ++ p :: rest)%list with ((seen ++ [p]) ++ rest)%list
      by now rewrite <- app_assoc.
    rewrite <- IH. f_equal.
    destruct (partial_paths seen) eqn:E.
    + apply (proj1 (partial_paths_nil_iff seen)) in E. rewrite E. reflexivity.
    + assert (Hne : seen <> []).
      { intros ->. discriminate E. }
      rewrite <- E, partial_paths_last, partial_paths_snoc, join_snoc by assumption.
      reflexivity.
Qed.

Lemma data_path_partial_paths (path : string) :
  data_path path = partial_paths (split "/" path).
Proof. apply (breadcrumb_loop_partial_paths (split "/" path) []). Qed.

End Breadcrumbs.

(** C9.  The breadcrumb trail of [browse] has one entry per segment of
    the path split on ["/"], and its [i]-th entry is the ["/"]-join of the
    first [i + 1] segments. *)
Theorem breadcrumb_partial_paths (path : string) (i : nat) :
  (i < length (split "/" path))%nat ->
  length (data_path path) = length (split "/" path)
  /\ nth_error (data_path path) i
     = Some (join "/" (firstn (S i) (split "/" path))).
Proof.
  intros Hi. rewrite data_path_partial_paths. unfold partial_paths. split.
  - now rewrite length_map, length_seq.
  - rewrite nth_error_map, nth_error_seq.
    destruct (Nat.ltb_spec i (length (split "/" path))); [reflexivity|lia].
Qed.

Lemma breadcrumb_partial_paths_abc :
  (2 < length (split "/" "a/b/c"))%nat
  /\ data_path "a/b/c" = ["a"; "a/b"; "a/b/c"]
  /\ nth_error (data_path "a/b/c") 2 = Some "a/b/c".
Proof.
  assert (H : (2 < length (split "/" "a/b/c"))%nat) by (vm_compute; lia).
  split; [exact H|]. split; [reflexivity|].
  exact (proj2 (breadcrumb_partial_paths "a/b/c" 2 H)).
Defined.

(** ** Parameter normalization *)

Lemma non_negative_int_integer (raw : option string) (default : Z) :
  non_negative_int raw default
  = match integer raw with Some i => Z.max i 0 | None => default end.
Proof. destruct raw as [s|]; reflexivity. Qed.




(** *** Decimal numerals are read back as the number they print *)

Lemma digits_string_of_uint (d : Decimal.uint) (acc : Z) :
  digits (NilEmpty.string_of_uint d) acc = Some (uint_value d acc).
Proof.
  revert acc; induction d; intros acc; cbn [NilEmpty.string_of_uint uint_value];
    [reflexivity|..]; apply IHd.
Qed.

Lemma uint_value_pos (d : Decimal.uint) (p : positive) :
  uint_value d (Z.pos p) = Z.pos (Pos.of_uint_acc d p).
Proof.
  revert p; induction d; intros p; cbn [uint_value Pos.of_uint_acc];
    [reflexivity|..];
    match goal with
    | |- uint_value _ ?z = Z.pos (Pos.of_uint_acc _ ?q) =>
        replace z with (Z.pos q) by lia; apply IHd
    end.
Qed.

Lemma uint_value_0 (d : Decimal.uint) : uint_value d 0 = Z.of_uint d.
Proof.
  unfold Z.of_uint.
  induction d; cbn [uint_value Pos.of_uint]; try exact IHd; try reflexivity;
    match goal with
    | |- uint_value _ ?z = _ => change z with (Z.pos (Z.to_pos z))
    end; rewrite uint_value_pos; reflexivity.
Qed.

Lemma rstrip_no_space (space : ascii -> bool) (s : string) :
  all_chars (fun c => negb (space c)) s = true -> rstrip space s = s.
Proof.
  induction s as [|a s IH]; [reflexivity|]. cbn [all_chars rstrip].
  rewrite andb_true_iff, negb_true_iff. intros [Ha Hs].
  rewrite (IH Hs), Ha. now destruct s.
Qed.

Lemma lstrip_no_space (space : ascii -> bool) (s : string) :
  all_chars (fun c => negb (space c)) s = true -> lstrip space s = s.
Proof.
  destruct s as [|a s]; [reflexivity|]. cbn [all_chars lstrip].
  rewrite andb_true_iff, negb_true_iff. now intros [-> _].
Qed.

Lemma string_of_uint_no_space (d : Decimal.uint) :
  all_chars (fun c => negb (is_text_space c)) (NilEmpty.string_of_uint d) = true.
Proof. induction d; cbn [NilEmpty.string_of_uint all_chars]; auto. Qed.

Lemma strip_string_of_uint (d : Decimal.uint) :
  strip is_text_space (NilZero.string_of_uint d) = NilZero.string_of_uint d.
Proof.
  assert (H : all_chars (fun c => negb (is_text_space c))
                        (NilZero.string_of_uint d) = true)
    by (destruct d; try apply (string_of_uint_no_space (_ d)); reflexivity).
  unfold strip. now rewrite (lstrip_no_space _ _ H), (rstrip_no_space _ _ H).
Qed.

Lemma int_string_of_uint (d : Decimal.uint) :
  int (NilZero.string_of_uint d) = Some (Z.of_uint d).
Proof.
  unfold int. rewrite strip_string_of_uint.
  rewrite <- uint_value_0, <- digits_string_of_uint.
  destruct d; reflexivity.
Qed.

Lemma int_format_int (n : Z) : 0 <= n -> int (format_int n) = Some n.
Proof.
  intros Hn. unfold format_int.
  rewrite <- (DecimalZ.of_to n) at 2.
  destruct n as [|p|p]; [reflexivity| |lia].
  cbn [Z.to_int NilZero.string_of_int Z.of_int].
  apply int_string_of_uint.
Qed.

(** A parameter written as the decimal numeral of a number that is not
    negative is normalized to that number, capped for the limit. *)
Lemma normalize_decimal (n : Z) :
  0 <= n ->
  offset (normalize [("offset", format_int n)]) = n
  /\ limit (normalize [("limit", format_int n)]) = Z.min n 1000.
Proof.
  intros Hn. unfold normalize; cbn [offset limit get].
  change (String.eqb "offset" "offset") with true.
  change (String.eqb "limit" "limit") with true. cbn iota.
  unfold non_negative_int. rewrite (int_format_int n Hn).
  rewrite Z.max_l by assumption. split; reflexivity.
Qed.

Example normalize_limit_5000 : limit (normalize [("limit", "5000")]) = 1000.
Proof. reflexivity. Qed.

Example normalize_limit_empty : limit (normalize [("limit", "")]) = 100.
Proof. reflexivity. Qed.

Example normalize_limit_10 : limit (normalize [("limit", "10")]) = 10.
Proof. reflexivity. Qed.

Example normalize_limit_missing : limit (normalize []) = 100.
Proof. reflexivity. Qed.

Example normalize_offset_negative : offset (normalize [("offset", "-7")]) = 0.
Proof. reflexivity. Qed.

Example normalize_offset_40 : offset (normalize [("offset", "40")]) = 40.
Proof. reflexivity. Qed.

Example normalize_limit_padded : limit (normalize [("limit", " +7 ")]) = 7.
Proof. reflexivity. Qed.

(** ** Running views *)

Ltac unfold_monad :=
  unfold journal, serve, run, bind, try_except, call_results,
    call_direct_result, call_folder, ret, raise, lift in *.

Ltac run_view := unfold_monad; cbn [fst snd List.app handle_user_exception] in *.

Lemma should_redirect_iff (req : Request) :
  should_redirect req = true <-> get (values req) "redirect" = Some "true".
Proof.
  unfold should_redirect, opt_eqb.
  destruct (get (values req) "redirect") as [v|]; [|split; discriminate].
  rewrite String.eqb_eq. split; congruence.
Qed.

(** ** The direct-result short cut *)

(** C1 (as stated, refuted).  A browser's search without a [redirect]
    parameter is HTML-shaped, its flag is false, and the index is never
    asked for a direct result although it has one for the query. *)
Lemma redirect_flag_not_forced :
  let req := Demo.browser [("q", "main")] in
  _request_wants_json req = Ok false
  /\ should_redirect req = false
  /\ direct_result (Demo.query "dxr_code" "main" false)
     = Ok (Some ("src/main.c", 12))
  /\ journal (search Demo.app req "code")
     = [ResultsAsked 0 100 (Ok [("c", "src/main.c", [(12, "int main(void)")])])].
Proof. vm_compute. repeat split. Qed.

(** C1 (amended).  In an HTML-shaped search the flag is true exactly
    when the request's [redirect] parameter is the literal [true], and the
    index is asked for a direct result exactly in that case. *)
Theorem redirect_flag_follows_parameter
        (app : Application) (req : Request) (query : Query)
        (tree text : string) (case : bool) (off lim : Z) (cfg : Config) :
  (should_redirect req = true <-> get (values req) "redirect" = Some "true")
  /\ ((exists answer,
         In (DirectResultAsked answer)
            (journal (_search_html app req query tree text case off lim cfg)))
      <-> get (values req) "redirect" = Some "true").
Proof.
  split; [apply should_redirect_iff|].
  rewrite <- should_redirect_iff.
  unfold _search_html.
  destruct (should_redirect req); run_view.
  - split; [reflexivity|intros _].
    exists (direct_result query).
    destruct (direct_result query) as [[[path line]|]|e]; cbn [fst snd].
    + now left.
    + destruct (results query off lim) as [found|[]]; cbn; now left.
    + now left.
  - split; [|discriminate].
    intros [answer H].
    destruct (results query off lim) as [found|[]]; cbn in H;
      destruct H as [H|[]]; discriminate H.
Qed.

(** ** Unknown trees *)

Lemma search_unknown_tree (app : Application) (req : Request) (tree : string) :
  mem tree (TREES (config app)) = false ->
  serve (search app req tree)
  = Responded {| payload := ErrorPage (Some ("No such tree as " ++ tree));
                 status := 404 |}.
Proof. intros H. unfold search. rewrite H. reflexivity. Qed.

Lemma browse_file_cases (app : Application) (tree path : string) :
  browse_file app tree path = Raise (NotFound None)
  \/ exists filename,
      browse_file app tree path = Ok {| payload := File filename; status := 200 |}.
Proof.
  unfold browse_file, _html_file_path, send_from_directory, safe_join.
  destruct (isdir app _); cbn [rbind]; [now left|].
  destruct (_ || _ || _); cbn [rbind]; [now left|].
  destruct (isfile app _); cbn [negb]; [right; eauto|now left].
Qed.

Lemma browse_unknown_index (app : Application) (tree path : string) :
  get (ES_ALIASES (config app)) tree = None ->
  browse_file app tree path = Raise (NotFound None) ->
  serve (browse app tree path) = Unhandled (KeyError tree).
Proof.
  intros Halias Hfile. unfold browse, browse_folder. run_view. rewrite Hfile.
  assert (E : getitem (ES_ALIASES (config app)) tree = Raise (KeyError tree)).
  { clear Hfile. induction (ES_ALIASES (config app)) as [|[k v] l IH]; [reflexivity|].
    cbn in *. destruct (String.eqb k tree); [discriminate|auto]. }
  rewrite E. reflexivity.
Qed.

(** C2 (the code at the failing input).  The tree [nosuch] is in
    neither registry and has no folder on disk.  The search route answers
    with a 404; the browse route looks the tree up in [ES_ALIASES] without a
    guard and dies of the [KeyError]. *)
Theorem browse_unknown_tree_unhandled :
  mem "nosuch" (TREES (config Demo.app)) = false
  /\ serve (search Demo.app (Demo.browser []) "nosuch")
     = Responded {| payload := ErrorPage (Some "No such tree as nosuch");
                    status := 404 |}
  /\ serve (browse Demo.app "nosuch" "") = Unhandled (KeyError "nosuch")
  /\ serve (browse Demo.app "nosuch" "src/main.c") = Unhandled (KeyError "nosuch").
Proof. vm_compute. repeat split. Qed.

(** ** Redirects *)


Example parallel_file :
  fst (run (parallel Demo.app "code" "src/main.c"))
  = Ok (redirect "/dxr/code/source/src/main.c").
Proof. reflexivity. Qed.

Example parallel_folder :
  fst (run (parallel Demo.app "code" "src"))
  = Ok (redirect "/dxr/code/source/src").
Proof. reflexivity. Qed.

Example parallel_absent :
  fst (run (parallel Demo.app "docs" "src/main.c"))
  = Ok (redirect "/dxr/docs/source/").
Proof. reflexivity. Qed.







Example tree_root_not_under_root :
  String.prefix (WWW_ROOT Demo.config) "code/source/" = false.
Proof. reflexivity. Qed.

(** With an empty root every target begins with the root, the one of
    [tree_root] included. *)
Example tree_root_under_empty_root :
  startswith "code/source/" "" = true.
Proof. reflexivity. Qed.

(** A direct hit for a query text with a space: the space of the target
    arrives percent-encoded. *)
Example direct_result_encodes_space :
  fst (run (_search_html Demo.app (Demo.browser [("q", "a b"); ("redirect", "true")])
                         {| direct_result := Ok (Some ("src/main.c", 12));
                            results := fun _ _ => Ok [] |}
                         "code" "a b" true 0 100 Demo.config))
  = Ok (redirect "/dxr/code/source/src/main.c?from=a%20b&case=true#12").
Proof. reflexivity. Qed.

(** ** Bad query terms *)

Lemma search_json_bad_term
      (app : Application) (query : Query) (tree text : string) (case : bool)
      (off lim off' lim' : Z) (cfg : Config) (reason : string) :
  In (ResultsAsked off' lim' (Raise (BadTerm reason)))
     (journal (_search_json app query tree text case off lim cfg)) ->
  fst (run (_search_json app query tree text case off lim cfg))
  = Ok {| payload := Json (VDict [("error_html", VStr reason);
                                  ("error_level", VStr "warning")]);
          status := 400 |}.
Proof.
  unfold _search_json. run_view.
  destruct (results query off lim) as [found|e] eqn:E; cbn.
  - intros [[=]|[]].
  - destruct e; cbn; intros [H|[]]; try discriminate H.
    now injection H as _ _ ->.
Qed.

Lemma search_html_bad_term
      (app : Application) (req : Request) (query : Query) (tree text : string)
      (case : bool) (off lim off' lim' : Z) (cfg : Config) (reason : string) :
  In (ResultsAsked off' lim' (Raise (BadTerm reason)))
     (journal (_search_html app req query tree text case off lim cfg)) ->
  fst (run (_search_html app req query tree text case off lim cfg))
  = Ok {| payload := Template "error.html"
                       (("error_html", VStr reason)
                          :: template_vars app cfg tree text case);
          status := 400 |}.
Proof.
  unfold _search_html.
  destruct (should_redirect req); run_view.
  - destruct (direct_result query) as [[[p line]|]|e]; cbn [fst snd].
    + intros [[=]|[]].
    + destruct (results query off lim) as [found|e] eqn:E; cbn.
      * intros [[=]|[[=]|[]]].
      * destruct e; cbn; intros [H|[H|[]]]; try discriminate H.
        now injection H as _ _ ->.
    + intros [[=]|[]].
  - destruct (results query off lim) as [found|e] eqn:E; cbn.
    + intros [[=]|[]].
    + destruct e; cbn; intros [H|[]]; try discriminate H.
      now injection H as _ _ ->.
Qed.

(** C5.  When the index answers the bounded search of a search request
    with a bad-term error, the dispatcher returns a response (nothing is
    raised) with status 400 that carries the error's reason: the JSON error
    object for a client that wants JSON, the rendered [error.html] page
    otherwise. *)
Theorem search_bad_term_400
        (app : Application) (req : Request) (tree : string)
        (off lim : Z) (reason : string) :
  In (ResultsAsked off lim (Raise (BadTerm reason)))
     (journal (search app req tree)) ->
  exists page,
    serve (search app req tree) = Responded {| payload := page; status := 400 |}
    /\ ((_request_wants_json req = Ok true
         /\ page = Json (VDict [("error_html", VStr reason);
                                ("error_level", VStr "warning")]))
        \/ (_request_wants_json req = Ok false
            /\ exists vars,
              page = Template "error.html" (("error_html", VStr reason) :: vars))).
Proof.
  unfold search, serve, journal.
  destruct (mem tree (TREES (config app))); cbn [negb];
    [|intros []].
  unfold run, bind at 1 2, lift at 1 2. cbn [fst snd].
  destruct (getitem (ES_ALIASES (config app)) tree) as [index|e];
    [|intros []].
  unfold bind at 1 2, lift at 1 2.
  destruct (_request_wants_json req) as [[|]|e]; [| |intros []]; intros H.
  - apply search_json_bad_term in H. unfold run in H. rewrite H.
    eexists; split; [reflexivity|left; auto].
  - apply search_html_bad_term in H. unfold run in H. rewrite H.
    eexists; split; [reflexivity|right; eauto].
Qed.

Lemma search_bad_term_400_demo :
  (In (ResultsAsked 0 100 (Raise (BadTerm "Invalid regexp")))
      (journal (search Demo.app (Demo.script [("q", "regexp:(")]) "code"))
   /\ exists page,
       serve (search Demo.app (Demo.script [("q", "regexp:(")]) "code")
       = Responded {| payload := page; status := 400 |})
  /\ (In (ResultsAsked 0 100 (Raise (BadTerm "Invalid regexp")))
         (journal (search Demo.app (Demo.browser [("q", "regexp:(")]) "code"))
      /\ exists page,
          serve (search Demo.app (Demo.browser [("q", "regexp:(")]) "code")
          = Responded {| payload := page; status := 400 |}).
Proof.
  split.
  - assert (H : In (ResultsAsked 0 100 (Raise (BadTerm "Invalid regexp")))
                   (journal (search Demo.app (Demo.script [("q", "regexp:(")]) "code")))
      by (vm_compute; left; reflexivity).
    split; [exact H|].
    destruct (search_bad_term_400 Demo.app (Demo.script [("q", "regexp:(")])
                                  "code" 0 100 "Invalid regexp" H)
      as [page [Hpage _]].
    exists page; exact Hpage.
  - assert (H : In (ResultsAsked 0 100 (Raise (BadTerm "Invalid regexp")))
                   (journal (search Demo.app (Demo.browser [("q", "regexp:(")]) "code")))
      by (vm_compute; left; reflexivity).
    split; [exact H|].
    destruct (search_bad_term_400 Demo.app (Demo.browser [("q", "regexp:(")])
                                  "code" 0 100 "Invalid regexp" H)
      as [page [Hpage _]].
    exists page; exact Hpage.
Defined.

Example search_bad_term_json :
  serve (search Demo.app (Demo.script [("q", "regexp:(")]) "code")
  = Responded {| payload := Json (VDict [("error_html", VStr "Invalid regexp");
                                         ("error_level", VStr "warning")]);
                 status := 400 |}.
Proof. reflexivity. Qed.

Example search_bad_term_after_direct_miss :
  journal (search Demo.app
                  (Demo.browser [("q", "regexp:("); ("redirect", "true")]) "code")
  = [DirectResultAsked (Ok None);
     ResultsAsked 0 100 (Raise (BadTerm "Invalid regexp"))]
  /\ exists page,
      serve (search Demo.app
                    (Demo.browser [("q", "regexp:("); ("redirect", "true")]) "code")
      = Responded {| payload := Template "error.html" page; status := 400 |}.
Proof. split; [reflexivity|eexists; reflexivity]. Qed.

(** ** Folder listings *)

Lemma folder_rows_ok (app : Application) (tree : string) (fs : list FolderDoc) :
  Forall (fun f => f_path f <> []) fs ->
  exists rows, folder_rows app tree fs = Ok rows /\ length rows = length fs.
Proof.
  induction 1 as [|f fs Hf _ [rows [IH Hlen]]]; [exists []; auto|].
  cbn [folder_rows]. unfold folder_row, first_path.
  destruct (f_path f) as [|p ps]; [congruence|]. cbn [rbind].
  rewrite IH. cbn [rbind]. eexists; split; [reflexivity|cbn; now rewrite Hlen].
Qed.

Lemma folder_rows_raise (app : Application) (tree : string)
      (fs : list FolderDoc) (e : exn) :
  folder_rows app tree fs = Raise e -> e = IndexError.
Proof.
  induction fs as [|f fs IH]; [discriminate|].
  cbn [folder_rows]. unfold folder_row, first_path.
  destruct (f_path f) as [|p ps]; cbn [rbind]; [now intros [= <-]|].
  destruct (folder_rows app tree fs) as [rows|e']; cbn [rbind]; [discriminate|].
  intros [= <-]. now apply IH.
Qed.

Lemma folder_rows_decide (app : Application) (tree : string) (fs : list FolderDoc) :
  folder_rows app tree fs
  = if forallb (fun f => match f_path f with [] => false | _ => true end) fs
    then Ok (map (row_of app tree) fs)
    else Raise IndexError.
Proof.
  induction fs as [|f fs IH]; [reflexivity|].
  cbn [folder_rows forallb map]. unfold folder_row, first_path, row_of.
  destruct (f_path f) as [|p ps]; cbn [rbind andb hd]; [reflexivity|].
  rewrite IH. now destruct (forallb _ fs).
Qed.





Example browse_prerendered_file :
  serve (browse Demo.app "code" "src/main.c")
  = Responded {| payload := File "/srv/dxr/trees/code/src/main.c.html";
                 status := 200 |}.
Proof. reflexivity. Qed.

Example browse_empty_folder_404 :
  serve (browse Demo.app "code" "nothing")
  = Responded {| payload := ErrorPage None; status := 404 |}.
Proof. reflexivity. Qed.

(** ** Content negotiation *)

Section Negotiation.

Lemma Qlt_bool_iff (a b : Q) : Qlt_bool a b = true <-> (a < b)%Q.
Proof.
  unfold Qlt_bool. rewrite negb_true_iff, <- not_true_iff_false, Qle_bool_iff.
  split; [apply Qnot_le_lt|apply Qlt_not_le].
Qed.

Lemma value_matches_json (item : string) :
  exists b, _value_matches "application/json" item = Ok b.
Proof.
  unfold _value_matches.
  change (contains "/" "application/json") with true.
  change (_normalize "application/json") with ("application", "json").
  cbn [negb andb String.eqb Ascii.eqb Bool.eqb].
  destruct (contains "/" item); cbn [negb]; [|eauto].
  destruct (_normalize item) as [item_type item_subtype].
  destruct (_ && _); eauto.
Qed.

Lemma value_matches_html (item : string) :
  exists b, _value_matches "text/html" item = Ok b.
Proof.
  unfold _value_matches.
  change (contains "/" "text/html") with true.
  change (_normalize "text/html") with ("text", "html").
  cbn [negb andb String.eqb Ascii.eqb Bool.eqb].
  destruct (contains "/" item); cbn [negb]; [|eauto].
  destruct (_normalize item) as [item_type item_subtype].
  destruct (_ && _); eauto.
Qed.

Lemma quality_total (self : Accept) (key : string) :
  never_raises key -> exists q, quality self key = Ok q.
Proof.
  intros Hkey. induction self as [|[item q] rest IH]; cbn; [eauto|].
  destruct (Hkey item) as [[|] ->]; cbn; eauto.
Qed.

Lemma best_match_item_total (server_item : string) (self : Accept)
      (best_quality : Q) (res : option string) :
  never_raises server_item ->
  exists bq r, best_match_item server_item self best_quality res = Ok (bq, r).
Proof.
  intros Hkey. revert best_quality res.
  induction self as [|[item q] rest IH]; intros best_quality res; cbn; [eauto|].
  destruct (Qle_bool q best_quality); [eauto|].
  destruct (Hkey item) as [[|] ->]; cbn; apply IH.
Qed.

Lemma best_match_total (self : Accept) :
  exists best, best_match self ["application/json"; "text/html"] = Ok best.
Proof.
  unfold best_match; cbn [best_match_loop].
  destruct (best_match_item_total "application/json" self (-1)%Q None value_matches_json)
    as [bq [r ->]]; cbn [rbind].
  destruct (best_match_item_total "text/html" self bq r value_matches_html)
    as [bq' [r' ->]]; cbn [rbind]. eauto.
Qed.

Lemma request_wants_json_total (req : Request) :
  exists b, _request_wants_json req = Ok b.
Proof.
  unfold _request_wants_json.
  destruct (best_match_total (accept_mimetypes req)) as [best ->]; cbn [rbind].
  destruct best as [best|]; [|eauto].
  destruct (String.eqb_spec best "application/json") as [->|]; [|eauto].
  destruct (quality_total (accept_mimetypes req) "application/json" value_matches_json) as [q1 ->].
  destruct (quality_total (accept_mimetypes req) "text/html" value_matches_html) as [q2 ->].
  cbn [rbind]. eauto.
Qed.

Lemma request_wants_json_literal (req : Request) :
  _request_wants_json req = Ok true
  <-> best_match (accept_mimetypes req) ["application/json"; "text/html"]
      = Ok (Some "application/json")
      /\ exists q_json q_html,
          quality (accept_mimetypes req) "application/json" = Ok q_json
          /\ quality (accept_mimetypes req) "text/html" = Ok q_html
          /\ (q_html < q_json)%Q.
Proof.
  unfold _request_wants_json.
  destruct (best_match_total (accept_mimetypes req)) as [best ->]; cbn [rbind].
  destruct best as [best|].
  2:{ split; [discriminate|intros [[=] _]]. }
  destruct (String.eqb_spec best "application/json") as [->|Hne].
  2:{ split; [discriminate|intros [[= H] _]; congruence]. }
  destruct (quality_total (accept_mimetypes req) "application/json" value_matches_json) as [q1 ->].
  destruct (quality_total (accept_mimetypes req) "text/html" value_matches_html) as [q2 ->].
  cbn [rbind]. split.
  - intros [= H]. apply Qlt_bool_iff in H. split; [reflexivity|eauto].
  - intros [_ [q_json [q_html [[= <-] [[= <-] H]]]]].
    apply Qlt_bool_iff in H. now rewrite H.
Qed.

(** *** Headers as Werkzeug stores them: best first, weights in [0, 1] *)

Lemma item_gtb_false (x y : string * Q) : item_gtb y x = false -> ge_quality x y.
Proof.
  unfold item_gtb, ge_quality.
  destruct (Qeq_bool (snd y) (snd x)) eqn:E.
  - intros _. apply Qeq_bool_iff in E. rewrite E. apply Qle_refl.
  - intros H. apply Qnot_lt_le. intros Hlt.
    apply Qlt_bool_iff in Hlt. congruence.
Qed.

Lemma item_gtb_true (x y : string * Q) : item_gtb y x = true -> ge_quality y x.
Proof.
  unfold item_gtb, ge_quality.
  destruct (Qeq_bool (snd y) (snd x)) eqn:E.
  - intros _. apply Qeq_bool_iff in E. rewrite E. apply Qle_refl.
  - intros H. apply Qlt_bool_iff in H. now apply Qlt_le_weak.
Qed.

Lemma insert_desc_In (x z : string * Q) (l : Accept) :
  In z (insert_desc x l) -> z = x \/ In z l.
Proof.
  induction l as [|y l IH]; cbn.
  - intros [<-|[]]; auto.
  - destruct (item_gtb y x); cbn.
    + intros [<-|H]; [auto|]. destruct (IH H); auto.
    + intros [<-|H]; auto.
Qed.

Lemma insert_desc_sorted (x : string * Q) (l : Accept) :
  StronglySorted ge_quality l -> StronglySorted ge_quality (insert_desc x l).
Proof.
  induction 1 as [|y l Hl IH Hy]; cbn.
  - repeat constructor.
  - destruct (item_gtb y x) eqn:E.
    + constructor; [assumption|].
      apply Forall_forall. intros z Hz.
      destruct (insert_desc_In _ _ _ Hz) as [->|Hz'].
      * now apply item_gtb_true.
      * rewrite Forall_forall in Hy. auto.
    + apply item_gtb_false in E.
      constructor; [now constructor|].
      constructor; [assumption|].
      revert Hy. apply Forall_impl. intros z Hz.
      unfold ge_quality in *. eapply Qle_trans; eassumption.
Qed.

Lemma MIMEAccept_sorted (values : list (string * Q)) :
  StronglySorted ge_quality (MIMEAccept values).
Proof.
  induction values as [|x l IH]; cbn; [constructor|].
  now apply insert_desc_sorted.
Qed.

Lemma MIMEAccept_Forall (P : string * Q -> Prop) (values : list (string * Q)) :
  Forall P values -> Forall P (MIMEAccept values).
Proof.
  induction 1 as [|x l Hx _ IH]; cbn; [constructor|].
  apply Forall_forall. intros z Hz.
  destruct (insert_desc_In _ _ _ Hz) as [->|Hz']; [assumption|].
  rewrite Forall_forall in IH. auto.
Qed.

Lemma parse_accept_header_well_formed (header : list (string * option Q)) :
  well_formed (parse_accept_header header).
Proof.
  split; [apply MIMEAccept_sorted|].
  apply MIMEAccept_Forall, Forall_forall.
  intros x Hx. apply in_map_iff in Hx as [[range [q|]] [<- _]]; cbn.
  - apply Q.le_max_r.
  - discriminate.
Qed.

Lemma quality_weight (self : Accept) (key : string) :
  never_raises key -> quality self key = Ok (weight self key).
Proof.
  intros Hkey. unfold weight.
  induction self as [|[item q] rest IH]; cbn; [reflexivity|].
  destruct (Hkey item) as [[|] ->]; cbn; [reflexivity|assumption].
Qed.

Lemma first_match_le (self : Accept) (key : string) (q bound : Q) :
  Forall (fun x => (snd x <= bound)%Q) self ->
  first_match self key = Some q -> (q <= bound)%Q.
Proof.
  induction 1 as [|[item q'] rest Hx _ IH]; cbn; [discriminate|].
  destruct (_value_matches key item) as [[|]|]; auto.
  now intros [= <-].
Qed.

Lemma first_match_nonneg (self : Accept) (key : string) (q : Q) :
  Forall (fun x => (0 <= snd x)%Q) self ->
  first_match self key = Some q -> (0 <= q)%Q.
Proof.
  induction 1 as [|[item q'] rest Hx _ IH]; cbn; [discriminate|].
  destruct (_value_matches key item) as [[|]|]; auto.
  now intros [= <-].
Qed.

(** On a header sorted best first, the scan for one server item either
    leaves the running best untouched or replaces it by the item with the
    weight the client gives it. *)
Lemma best_match_item_sorted (server_item : string) (self : Accept)
      (best_quality : Q) (res : option string) :
  never_raises server_item ->
  StronglySorted ge_quality self ->
  best_match_item server_item self best_quality res
  = Ok (match first_match self server_item with
        | Some q => if Qle_bool q best_quality then (best_quality, res)
                    else (q, Some server_item)
        | None => (best_quality, res)
        end).
Proof.
  intros Hkey Hsorted. revert best_quality res.
  induction Hsorted as [|[item q] rest Hrest IH Hq]; intros best_quality res;
    cbn [best_match_item first_match]; [reflexivity|].
  assert (Hle : forall q', first_match rest server_item = Some q' -> (q' <= q)%Q).
  { intros q'. apply first_match_le. exact Hq. }
  destruct (Hkey item) as [[|] ->]; cbn [rbind].
  - destruct (Qle_bool q best_quality) eqn:Ebreak; [reflexivity|].
    rewrite IH.
    destruct (first_match rest server_item) as [q'|] eqn:E; [|reflexivity].
    replace (Qle_bool q' q) with true; [reflexivity|].
    symmetry. apply Qle_bool_iff. now apply Hle.
  - destruct (Qle_bool q best_quality) eqn:Ebreak; [|apply IH].
    apply Qle_bool_iff in Ebreak.
    destruct (first_match rest server_item) as [q'|] eqn:E; [|reflexivity].
    replace (Qle_bool q' best_quality) with true; [reflexivity|].
    symmetry. apply Qle_bool_iff. eapply Qle_trans; [now apply Hle|assumption].
Qed.

(** For such a header the first conjunct of [_request_wants_json] is
    implied by the second: JSON is chosen exactly when the client weighs it
    strictly above HTML. *)
Lemma request_wants_json_weights (req : Request) :
  well_formed (accept_mimetypes req) ->
  _request_wants_json req
  = Ok (Qlt_bool (weight (accept_mimetypes req) "text/html")
                 (weight (accept_mimetypes req) "application/json")).
Proof.
  intros [Hsorted Hnonneg].
  assert (Hneg : forall q, (0 <= q)%Q -> Qle_bool q (-1) = false).
  { intros q Hq. apply not_true_iff_false. rewrite Qle_bool_iff.
    intros H. apply (Qle_trans _ _ _ Hq) in H.
    unfold Qle in H; cbn in H; lia. }
  unfold _request_wants_json, best_match. cbn [best_match_loop].
  rewrite (quality_weight _ "text/html" value_matches_html).
  rewrite (best_match_item_sorted "application/json" _ _ _
             value_matches_json Hsorted); cbn [rbind].
  pose proof (quality_weight (accept_mimetypes req) "application/json"
                             value_matches_json) as Qj.
  unfold weight in *.
  pose proof (first_match_nonneg (accept_mimetypes req) "application/json") as Hj.
  pose proof (first_match_nonneg (accept_mimetypes req) "text/html") as Hh.
  destruct (first_match (accept_mimetypes req) "application/json") as [qj|].
  - specialize (Hj qj Hnonneg eq_refl).
    rewrite (Hneg qj Hj).
    rewrite (best_match_item_sorted "text/html" _ _ _
               value_matches_html Hsorted); cbn [rbind].
    destruct (first_match (accept_mimetypes req) "text/html") as [qh|].
    + destruct (Qle_bool qh qj) eqn:E; cbn [rbind].
      * change (String.eqb "application/json" "application/json") with true.
        cbn iota. rewrite Qj. reflexivity.
      * change (String.eqb "text/html" "application/json") with false.
        cbn iota. f_equal. symmetry. apply not_true_iff_false.
        rewrite Qlt_bool_iff. intros Hlt.
        apply Qlt_le_weak, Qle_bool_iff in Hlt. congruence.
    + cbn [rbind].
      change (String.eqb "application/json" "application/json") with true.
      cbn iota. rewrite Qj. reflexivity.
  - rewrite (best_match_item_sorted "text/html" _ _ _
               value_matches_html Hsorted); cbn [rbind].
    destruct (first_match (accept_mimetypes req) "text/html") as [qh|].
    + specialize (Hh qh Hnonneg eq_refl).
      rewrite (Hneg qh Hh). cbn [rbind].
      change (String.eqb "text/html" "application/json") with false.
      cbn iota. f_equal. symmetry. apply not_true_iff_false.
      rewrite Qlt_bool_iff. now apply Qle_not_lt.
    + reflexivity.
Qed.

End Negotiation.

Lemma Qlt_bool_irrefl (q : Q) : Qlt_bool q q = false.
Proof.
  apply not_true_iff_false. rewrite Qlt_bool_iff. apply Qlt_irrefl.
Qed.

Lemma wildcard_is_rendered (vals : list (string * string)) (q : option Q) :
  _request_wants_json
    {| values := vals; accept_mimetypes := parse_accept_header [("*/*", q)] |}
  = Ok false.
Proof.
  rewrite request_wants_json_weights by apply parse_accept_header_well_formed.
  cbn [accept_mimetypes]. unfold parse_accept_header, MIMEAccept, weight.
  cbn [map fold_right insert_desc first_match].
  change (_value_matches "text/html" "*/*") with (Ok true).
  change (_value_matches "application/json" "*/*") with (Ok true).
  cbn iota. now rewrite Qlt_bool_irrefl.
Qed.

Lemma equal_weights_are_rendered (vals : list (string * string)) (q : option Q) :
  _request_wants_json
    {| values := vals;
       accept_mimetypes :=
         parse_accept_header [("application/json", q); ("text/html", q)] |}
  = Ok false.
Proof.
  rewrite request_wants_json_weights by apply parse_accept_header_well_formed.
  cbn [accept_mimetypes]. unfold parse_accept_header, MIMEAccept, weight.
  cbn [map fold_right insert_desc].
  destruct (item_gtb _ _); cbn [first_match];
    change (_value_matches "text/html" "text/html") with (Ok true);
    change (_value_matches "application/json" "application/json") with (Ok true);
    change (_value_matches "text/html" "application/json") with (Ok false);
    change (_value_matches "application/json" "text/html") with (Ok false);
    cbn iota; now rewrite Qlt_bool_irrefl.
Qed.

(** C3.  For every Accept header, the negotiator answers (it never
    raises), and it chooses JSON exactly when [application/json] is the best
    match among the two offered types and its quality is strictly above the
    quality of [text/html]; for a header as Werkzeug stores it this is the
    same as JSON's weight strictly exceeding HTML's.  A wildcard-only header
    and a header giving both types one weight yield rendered output. *)
Theorem negotiator_json_iff_strictly_preferred
        (vals : list (string * string)) (header : list (string * option Q))
        (q : option Q) :
  let req := {| values := vals; accept_mimetypes := parse_accept_header header |} in
  (exists b, _request_wants_json req = Ok b)
  /\ (_request_wants_json req = Ok true
      <-> best_match (accept_mimetypes req) ["application/json"; "text/html"]
          = Ok (Some "application/json")
          /\ exists q_json q_html,
              quality (accept_mimetypes req) "application/json" = Ok q_json
              /\ quality (accept_mimetypes req) "text/html" = Ok q_html
              /\ (q_html < q_json)%Q)
  /\ (_request_wants_json req = Ok true
      <-> (weight (accept_mimetypes req) "text/html"
           < weight (accept_mimetypes req) "application/json")%Q)
  /\ _request_wants_json
       {| values := vals; accept_mimetypes := parse_accept_header [("*/*", q)] |}
     = Ok false
  /\ _request_wants_json
       {| values := vals;
          accept_mimetypes :=
            parse_accept_header [("application/json", q); ("text/html", q)] |}
     = Ok false.
Proof.
  intros req.
  split; [apply request_wants_json_total|].
  split; [apply request_wants_json_literal|].
  split; [|split; [apply wildcard_is_rendered|apply equal_weights_are_rendered]].
  rewrite request_wants_json_weights by apply parse_accept_header_well_formed.
  rewrite <- Qlt_bool_iff. split; congruence.
Qed.

Example accept_json_alone :
  _request_wants_json (Demo.script []) = Ok true.
Proof. reflexivity. Qed.

Example accept_wildcard :
  _request_wants_json
    {| values := []; accept_mimetypes := parse_accept_header [("*/*", None)] |}
  = Ok false.
Proof. reflexivity. Qed.

Example accept_equal_weights :
  _request_wants_json
    {| values := [];
       accept_mimetypes :=
         parse_accept_header [("application/json", Some (8 # 10));
                              ("text/html", Some (8 # 10))] |}
  = Ok false.
Proof. reflexivity. Qed.

Example accept_json_above_html :
  _request_wants_json
    {| values := [];
       accept_mimetypes :=
         parse_accept_header [("text/html", Some (5 # 10));
                              ("application/json", Some (9 # 10))] |}
  = Ok true.
Proof. reflexivity. Qed.

Example accept_browser :
  _request_wants_json (Demo.browser []) = Ok false.
Proof. reflexivity. Qed.

(** ** Links that carry the query forward *)

Section Quoting.

Lemma contains_app (c : ascii) (a b : string) :
  contains c (a ++ b) = contains c a || contains c b.
Proof.
  induction a as [|x a IH]; cbn; [reflexivity|].
  destruct (Ascii.eqb x c); [reflexivity|exact IH].
Qed.

Lemma split1_absent (c : ascii) (a : string) :
  contains c a = false -> split1 c a = (a, None).
Proof.
  induction a as [|x a IH]; cbn; [reflexivity|].
  destruct (Ascii.eqb x c); [discriminate|].
  intros H. now rewrite (IH H).
Qed.

Lemma split1_first (c : ascii) (a b : string) :
  contains c a = false -> split1 c (a ++ String c b) = (a, Some b).
Proof.
  induction a as [|x a IH]; cbn.
  - now rewrite Ascii.eqb_refl.
  - destruct (Ascii.eqb x c); [discriminate|].
    intros H. now rewrite (IH H).
Qed.

Lemma split_absent (c : ascii) (a : string) :
  contains c a = false -> split c a = [a].
Proof.
  induction a as [|x a IH]; cbn; [reflexivity|].
  destruct (Ascii.eqb x c); [discriminate|].
  intros H. now rewrite (IH H).
Qed.

Lemma split_first (c : ascii) (a b : string) :
  contains c a = false -> split c (a ++ String c b) = a :: split c b.
Proof.
  induction a as [|x a IH]; cbn.
  - now rewrite Ascii.eqb_refl.
  - destruct (Ascii.eqb x c); [discriminate|].
    intros H. now rewrite (IH H).
Qed.

Lemma byte_ok_all (a : ascii) : byte_ok a = true.
Proof.
  destruct a as [[|] [|] [|] [|] [|] [|] [|] [|]]; vm_compute; reflexivity.
Qed.

Lemma always_safe_plain (a : ascii) :
  always_safe a = true ->
  Ascii.eqb a "%" = false /\ Ascii.eqb a " " = false.
Proof.
  intros H. pose proof (byte_ok_all a) as Hok. unfold byte_ok in Hok.
  rewrite H in Hok. cbn [negb orb] in Hok.
  rewrite !andb_true_iff, !negb_true_iff in Hok. tauto.
Qed.

Lemma is_alnum_always_safe (a : ascii) :
  is_alnum a = true -> always_safe a = true.
Proof. intros H. unfold always_safe. now rewrite H. Qed.

Lemma is_alnum_plain (a : ascii) :
  is_alnum a = true ->
  Ascii.eqb a "+" = false /\ Ascii.eqb a "%" = false /\ Ascii.eqb a " " = false.
Proof.
  intros H. split; [|now apply always_safe_plain, is_alnum_always_safe].
  pose proof (byte_ok_all a) as Hok. unfold byte_ok in Hok.
  rewrite H in Hok. cbn [negb orb] in Hok.
  rewrite !andb_true_iff, !negb_true_iff in Hok. tauto.
Qed.

Lemma quote_byte_decodes (a : ascii) :
  exists h l x y,
    quote_byte a = String "%" (String h (String l ""))
    /\ is_alnum h = true /\ is_alnum l = true
    /\ hex_value h = Some x /\ hex_value l = Some y
    /\ ascii_of_nat (16 * x + y) = a.
Proof.
  pose proof (byte_ok_all a) as Hok. unfold byte_ok in Hok.
  rewrite !andb_true_iff in Hok. destruct Hok as [[[_ Hh] Hl] Hv].
  unfold quote_byte.
  destruct (hex_value (hex_digit (nat_of_ascii a / 16))) as [x|] eqn:Ex;
    [|discriminate].
  destruct (hex_value (hex_digit (nat_of_ascii a mod 16))) as [y|] eqn:Ey;
    [|discriminate].
  apply Ascii.eqb_eq in Hv.
  do 4 eexists. repeat split; eassumption.
Qed.

(** A byte that [url_quote] would escape, other than a letter, a digit
    or the percent sign, does not occur in its output. *)
Lemma url_quote_escaped_avoids (c : ascii) (safe unsafe s : string) :
  (always_safe c || contains c safe) && negb (contains c unsafe) = false ->
  is_alnum c = false -> Ascii.eqb c "%" = false ->
  contains c (url_quote safe unsafe s) = false.
Proof.
  intros Hc Halnum Hpct.
  assert (Hne : forall x, is_alnum x = true -> Ascii.eqb x c = false).
  { intros x Hx. destruct (Ascii.eqb_spec x c) as [->|]; congruence. }
  induction s as [|a s IH]; [reflexivity|]. cbn [url_quote].
  destruct ((always_safe a || contains a safe) && negb (contains a unsafe)) eqn:Ea.
  - cbn [contains]. destruct (Ascii.eqb_spec a c) as [->|]; [|exact IH].
    congruence.
  - destruct (quote_byte_decodes a) as (h & l & x & y & -> & Hh & Hl & _).
    cbn [append contains].
    rewrite (Hne h Hh), (Hne l Hl), Ascii.eqb_sym, Hpct. exact IH.
Qed.

Lemma url_quote_avoids (c : ascii) (safe s : string) :
  always_safe c = false -> contains c safe = false -> Ascii.eqb c "%" = false ->
  contains c (url_quote safe "" s) = false.
Proof.
  intros Hc Hsafe Hpct. apply url_quote_escaped_avoids; [|..|assumption].
  - now rewrite Hc, Hsafe.
  - destruct (is_alnum c) eqn:E; [|reflexivity].
    apply is_alnum_always_safe in E. congruence.
Qed.

Lemma replace_char_avoids (c a b : ascii) (s : string) :
  contains c s = false -> Ascii.eqb b c = false ->
  contains c (replace_char a b s) = false.
Proof.
  intros Hs Hb. induction s as [|x s IH]; cbn in *; [reflexivity|].
  destruct (Ascii.eqb x c) eqn:Ex; [discriminate|].
  destruct (Ascii.eqb x a); rewrite ?Hb, ?Ex; auto.
Qed.

(** The separators of a query string and of a URL never occur in a
    quoted key or value. *)
Lemma url_quote_plus_avoids (c : ascii) (s : string) :
  always_safe c = false -> Ascii.eqb c " " = false ->
  Ascii.eqb c "%" = false -> Ascii.eqb c "+" = false ->
  contains c (url_quote_plus s) = false.
Proof.
  intros Hc Hsp Hpct Hplus. unfold url_quote_plus.
  apply replace_char_avoids; [|now rewrite Ascii.eqb_sym].
  apply url_quote_escaped_avoids; [|..|assumption].
  - rewrite Hc. cbn [contains orb]. now rewrite Ascii.eqb_sym, Hsp.
  - destruct (is_alnum c) eqn:E; [|reflexivity].
    apply is_alnum_always_safe in E. congruence.
Qed.

(** Decoding undoes quoting. *)
Lemma url_unquote_quote_plus (s : string) :
  url_unquote_plus (url_quote_plus s) = s.
Proof.
  unfold url_quote_plus.
  induction s as [|a s IH]; [reflexivity|].
  cbn [url_quote].
  destruct ((always_safe a || contains a " ") && negb (contains a "+")) eqn:Ea.
  - apply andb_true_iff in Ea as [Ea Hplus].
    cbn [contains] in Hplus.
    assert (Hp : Ascii.eqb a "+" = false)
      by (rewrite Ascii.eqb_sym; now destruct (Ascii.eqb "+" a)).
    cbn [replace_char url_unquote_plus].
    destruct (Ascii.eqb_spec a " ") as [->|Hsp].
    + change (Ascii.eqb "+" "+") with true. cbn iota. now rewrite IH.
    + assert (Hsafe : always_safe a = true).
      { apply orb_true_iff in Ea as [Ea|Ea]; [assumption|].
        cbn [contains] in Ea. destruct (Ascii.eqb_spec " " a); congruence. }
      destruct (always_safe_plain a Hsafe) as (Hpct & _).
      now rewrite Hp, Hpct, IH.
  - destruct (quote_byte_decodes a) as (h & l & x & y & -> & Hh & Hl & Hx & Hy & Ha).
    destruct (is_alnum_plain h Hh) as (_ & _ & Hhsp).
    destruct (is_alnum_plain l Hl) as (_ & _ & Hlsp).
    cbn [append replace_char].
    change (Ascii.eqb "%" " ") with false. cbn iota.
    rewrite Hhsp, Hlsp.
    cbn [url_unquote_plus].
    change (Ascii.eqb "%" "+") with false.
    change (Ascii.eqb "%" "%") with true. cbn iota.
    now rewrite Hx, Hy, Ha, IH.
Qed.

End Quoting.

Section TreeLinks.

Lemma quoted_avoids_separators (s : string) :
  contains "&" (url_quote_plus s) = false
  /\ contains "=" (url_quote_plus s) = false
  /\ contains "?" (url_quote_plus s) = false
  /\ contains "#" (url_quote_plus s) = false.
Proof. repeat split; now apply url_quote_plus_avoids. Qed.

Lemma url_decode_link_args (text : string) (case : bool) :
  url_decode (url_encode (link_args text case)) = link_args text case.
Proof.
  destruct (quoted_avoids_separators text) as (Hamp & Heq & _).
  pose proof (url_unquote_quote_plus text) as Hrt.
  unfold link_args, url_decode.
  remember (url_quote_plus text) as E eqn:HE.
  destruct case.
  - change (url_encode [("q", text); ("case", "true")])
      with (url_quote_plus "q" ++ "=" ++ url_quote_plus text
              ++ "&" ++ url_quote_plus "case" ++ "=" ++ url_quote_plus "true").
    rewrite <- HE.
    change (url_quote_plus "q" ++ "=" ++ E ++ "&"
              ++ url_quote_plus "case" ++ "=" ++ url_quote_plus "true")
      with (String "q" (String "=" E) ++ String "&" "case=true").
    rewrite split_first
      by (cbn [contains]; change (Ascii.eqb "q" "&") with false;
          change (Ascii.eqb "=" "&") with false; exact Hamp).
    change (split "&" "case=true") with ["case=true"].
    cbn [filter String.eqb negb map].
    unfold decode_pair at 1.
    cbn [split1]. change (Ascii.eqb "q" "=") with false.
    change (Ascii.eqb "=" "=") with true. cbn iota.
    change (url_unquote_plus "q") with "q". rewrite Hrt.
    reflexivity.
  - change (url_encode [("q", text)])
      with (url_quote_plus "q" ++ "=" ++ url_quote_plus text).
    rewrite <- HE.
    change (url_quote_plus "q" ++ "=" ++ E) with (String "q" (String "=" E)).
    rewrite split_absent
      by (cbn [contains]; change (Ascii.eqb "q" "&") with false;
          change (Ascii.eqb "=" "&") with false; exact Hamp).
    cbn [filter String.eqb negb map].
    unfold decode_pair.
    cbn [split1]. change (Ascii.eqb "q" "=") with false.
    change (Ascii.eqb "=" "=") with true. cbn iota.
    change (url_unquote_plus "q") with "q". rewrite Hrt.
    reflexivity.
Qed.

Lemma url_encode_link_args_avoids (c : ascii) (text : string) (case : bool) :
  contains c "q=&case=true" = false ->
  contains c (url_quote_plus text) = false ->
  contains c (url_encode (link_args text case)) = false.
Proof.
  intros Hc HE. unfold link_args.
  remember (url_quote_plus text) as E eqn:HEq.
  destruct case.
  - change (url_encode [("q", text); ("case", "true")])
      with (url_quote_plus "q" ++ "=" ++ url_quote_plus text
              ++ "&" ++ url_quote_plus "case" ++ "=" ++ url_quote_plus "true").
    rewrite <- HEq.
    change (url_quote_plus "q" ++ "=" ++ E ++ "&"
              ++ url_quote_plus "case" ++ "=" ++ url_quote_plus "true")
      with ("q=" ++ E ++ "&case=true").
    rewrite !contains_app, HE.
    change ("q=&case=true") with ("q=" ++ "&case=true") in Hc.
    rewrite contains_app in Hc. apply orb_false_iff in Hc as [-> ->].
    reflexivity.
  - change (url_encode [("q", text)])
      with (url_quote_plus "q" ++ "=" ++ url_quote_plus text).
    rewrite <- HEq.
    change (url_quote_plus "q" ++ "=" ++ E) with ("q=" ++ E).
    rewrite contains_app, HE.
    change ("q=&case=true") with ("q=" ++ "&case=true") in Hc.
    rewrite contains_app in Hc. apply orb_false_iff in Hc as [-> _].
    reflexivity.
Qed.

Lemma search_link_shape (root t text : string) (case : bool) :
  url_for root ep_search t None (link_args text case)
  = link_base root t ++ String "?" (url_encode (link_args text case)).
Proof.
  unfold url_for, link_base, link_args. cbn [rule_suffix].
  now rewrite !append_assoc.
Qed.

Lemma link_base_avoids (c : ascii) (root t : string) :
  contains c root = false ->
  always_safe c = false -> contains c "/:" = false -> Ascii.eqb c "%" = false ->
  contains c "/search" = false ->
  contains c (link_base root t) = false.
Proof.
  intros Hroot Hsafe Hslash Hpct Hsearch. unfold link_base.
  rewrite !contains_app, Hroot, Hsearch.
  rewrite (url_quote_avoids c "/:" t Hsafe Hslash Hpct).
  change "/:" with ("/" ++ ":") in Hslash.
  rewrite contains_app in Hslash. apply orb_false_iff in Hslash as [-> _].
  reflexivity.
Qed.

Lemma link_params_search_link (root t text : string) (case : bool) :
  contains "?" root = false -> contains "#" root = false ->
  link_params (url_for root ep_search t None (link_args text case))
  = link_args text case.
Proof.
  intros Hq Hf.
  destruct (quoted_avoids_separators text) as (_ & _ & _ & Hfrag).
  rewrite search_link_shape. unfold link_params.
  rewrite (split1_absent "#").
  2:{ rewrite contains_app,
        (link_base_avoids "#" root t Hf eq_refl eq_refl eq_refl eq_refl).
      cbn [contains orb]. change (Ascii.eqb "?" "#") with false. cbn iota.
      now apply url_encode_link_args_avoids. }
  cbn [fst].
  rewrite split1_first
    by exact (link_base_avoids "?" root t Hq eq_refl eq_refl eq_refl eq_refl).
  apply url_decode_link_args.
Qed.

Lemma normalize_link_args (text : string) (case : bool) :
  query_text (normalize (link_args text case)) = text
  /\ is_case_sensitive (normalize (link_args text case)) = case
  /\ (case = false -> get (link_args text case) "case" = None).
Proof. destruct case; repeat split; discriminate. Qed.

Lemma tree_tuples_In (app : Application) (trees : list (string * string))
      (tree text : string) (case : bool) (t description : string) :
  In (t, description) trees ->
  In (VTuple [VStr t;
              VStr (url_for (WWW_ROOT (config app)) ep_search t None
                            (link_args text case));
              VStr description])
     (_tree_tuples app trees tree text case).
Proof.
  intros H. unfold _tree_tuples.
  apply in_map_iff. exists (t, description). split; [reflexivity|assumption].
Qed.

End TreeLinks.

(** C8.  Each per-tree search link of [_tree_tuples] is the tree's search
    URL followed by a query string that decodes and normalizes back to the
    query text and the case flag it was built from; with no [case] argument
    in it when the flag is false.  When the root URL has neither a question
    mark nor a fragment mark, the same holds of the parameters of the request
    a client makes by following the link. *)
Theorem tree_link_round_trip
        (app : Application) (trees : list (string * string))
        (tree text : string) (case : bool) (t description : string) :
  In (t, description) trees ->
  exists url qs,
    In (VTuple [VStr t; VStr url; VStr description])
       (_tree_tuples app trees tree text case)
    /\ url = link_base (WWW_ROOT (config app)) t ++ String "?" qs
    /\ query_text (normalize (url_decode qs)) = text
    /\ is_case_sensitive (normalize (url_decode qs)) = case
    /\ (case = false -> get (url_decode qs) "case" = None)
    /\ (contains "?" (WWW_ROOT (config app)) = false ->
        contains "#" (WWW_ROOT (config app)) = false ->
        link_params url = url_decode qs).
Proof.
  intros Hin.
  exists (url_for (WWW_ROOT (config app)) ep_search t None (link_args text case)).
  exists (url_encode (link_args text case)).
  split; [now apply tree_tuples_In|].
  split; [apply search_link_shape|].
  rewrite url_decode_link_args.
  destruct (normalize_link_args text case) as (Ht & Hc & Hnone).
  repeat (split; [assumption|]).
  intros Hq Hf. now apply link_params_search_link.
Qed.

Lemma tree_link_round_trip_demo :
  In ("docs", "The manual") (TREES Demo.config)
  /\ exists url qs,
      In (VTuple [VStr "docs"; VStr url; VStr "The manual"])
         (_tree_tuples Demo.app (TREES Demo.config) "code" "a b&c=d+e" true)
      /\ url = link_base "/dxr" "docs" ++ String "?" qs
      /\ query_text (normalize (url_decode qs)) = "a b&c=d+e"
      /\ is_case_sensitive (normalize (url_decode qs)) = true
      /\ (true = false -> get (url_decode qs) "case" = None)
      /\ (contains "?" "/dxr" = false -> contains "#" "/dxr" = false ->
          link_params url = url_decode qs).
Proof.
  assert (H : In ("docs", "The manual") (TREES Demo.config))
    by (right; left; reflexivity).
  split; [exact H|].
  exact (tree_link_round_trip Demo.app (TREES Demo.config) "code" "a b&c=d+e"
                              true "docs" "The manual" H).
Defined.

Example tree_link_text :
  _tree_tuples Demo.app [("docs", "The manual")] "code" "a b&c=d+e" true
  = [VTuple [VStr "docs";
             VStr "/dxr/docs/search?q=a+b%26c%3Dd%2Be&case=true";
             VStr "The manual"]]
  /\ normalize (link_params "/dxr/docs/search?q=a+b%26c%3Dd%2Be&case=true")
     = {| query_text := "a b&c=d+e"; offset := 0; limit := 100;
          is_case_sensitive := true |}.
Proof. split; reflexivity. Qed.

Example tree_link_case_insensitive :
  _tree_tuples Demo.app [("docs", "The manual")] "code" "main" false
  = [VTuple [VStr "docs"; VStr "/dxr/docs/search?q=main"; VStr "The manual"]]
  /\ is_case_sensitive (normalize (link_params "/dxr/docs/search?q=main")) = false.
Proof. split; reflexivity. Qed.

(** * Further properties of the views *)

(** ** Paths and breadcrumbs *)

Section Paths.

Lemma split_nonempty (sep : ascii) (s : string) : split sep s <> [].
Proof.
  destruct s as [|a s]; cbn; [discriminate|].
  destruct (Ascii.eqb a sep); [discriminate|].
  destruct (split sep s); discriminate.
Qed.

(** Joining the segments of a split gives the string back. *)
Lemma join_split (sep : ascii) (s : string) :
  join (String sep "") (split sep s) = s.
Proof.
  induction s as [|a s IH]; [reflexivity|]. cbn [split].
  pose proof (split_nonempty sep s) as Hne.
  destruct (Ascii.eqb_spec a sep) as [->|_].
  - destruct (split sep s) as [|seg segs]; [congruence|].
    change (join (String sep "") ("" :: seg :: segs))
      with (String sep (join (String sep "") (seg :: segs))).
    now rewrite IH.
  - destruct (split sep s) as [|seg segs]; [congruence|].
    destruct segs as [|seg' segs].
    + cbn in *. now rewrite IH.
    + change (join (String sep "") (String a seg :: seg' :: segs))
        with (String a (join (String sep "") (seg :: seg' :: segs))).
      now rewrite IH.
Qed.

Lemma join_app (sep : string) (l1 l2 : list string) :
  l1 <> [] -> l2 <> [] ->
  join sep (l1 ++ l2) = join sep l1 ++ sep ++ join sep l2.
Proof.
  intros H1 H2. induction l1 as [|a l1 IH]; [congruence|].
  destruct l1 as [|b l1].
  - destruct l2; [congruence|reflexivity].
  - change (join sep ((a :: b :: l1) ++ l2))
      with (a ++ sep ++ join sep ((b :: l1) ++ l2)).
    rewrite IH by discriminate.
    change (join sep (a :: b :: l1)) with (a ++ sep ++ join sep (b :: l1)).
    now rewrite !append_assoc.
Qed.

Lemma prefix_append (a b : string) : String.prefix a (a ++ b) = true.
Proof.
  induction a as [|x a IH]; cbn; [now destruct b|].
  destruct (ascii_dec x x); [exact IH|congruence].
Qed.

Lemma prefix_refl (a : string) : String.prefix a a = true.
Proof.
  induction a as [|x a IH]; cbn; [reflexivity|].
  destruct (ascii_dec x x); [exact IH|congruence].
Qed.

Lemma join_firstn_prefix (l : list string) (i : nat) :
  String.prefix (join "/" (firstn (S i) l)) (join "/" l) = true.
Proof.
  destruct (firstn (S i) l) as [|a l1] eqn:E1.
  - now destruct (join "/" l).
  - destruct (skipn (S i) l) as [|b l2] eqn:E2.
    + rewrite <- (firstn_skipn (S i) l).
      rewrite E1, E2, app_nil_r. apply prefix_refl.
    + rewrite <- (firstn_skipn (S i) l).
      rewrite E1, E2, join_app by discriminate. apply prefix_append.
Qed.

End Paths.

(** X1.  The breadcrumb trail [browse] computes is never empty, ends at
    the requested path itself, and each of its entries is a prefix of the
    requested path. *)
Theorem breadcrumbs_lead_to_path (path : string) :
  data_path path <> []
  /\ last (data_path path) "" = path
  /\ Forall (fun entry => String.prefix entry path = true) (data_path path).
Proof.
  rewrite data_path_partial_paths.
  pose proof (split_nonempty "/" path) as Hne.
  split; [|split].
  - intros H. now apply (proj1 (partial_paths_nil_iff _)) in H.
  - rewrite partial_paths_last by assumption. apply (join_split "/").
  - unfold partial_paths. apply Forall_forall. intros entry Hin.
    apply in_map_iff in Hin as [i [<- _]].
    rewrite <- (join_split "/" path) at 2.
    apply join_firstn_prefix.
Qed.

(** ** Folder pages *)

Section FolderPages.

Lemma getitem_get {A} (d : list (string * A)) (key : string) :
  getitem d key = match get d key with Some v => Ok v | None => Raise (KeyError key) end.
Proof.
  induction d as [|[k v] d IH]; cbn; [reflexivity|].
  now destruct (String.eqb k key).
Qed.

(** What a run of [browse] can be: the prerendered page; or, with no
    page to serve, a [KeyError] for a tree without an index alias, a
    [NotFound] for an empty answer of the index, an [IndexError] for an entry
    without a path, or the folder page. *)
Lemma browse_cases (app : Application) (tree path : string) :
  (exists f, browse_file app tree path = Ok f
             /\ run (browse app tree path) = (Ok f, []))
  \/ (browse_file app tree path = Raise (NotFound None)
      /\ ((get (ES_ALIASES (config app)) tree = None
           /\ run (browse app tree path) = (Raise (KeyError tree), []))
          \/ exists index,
              get (ES_ALIASES (config app)) tree = Some index
              /\ journal (browse app tree path)
                 = [FolderAsked index path (es_folder app index path)]
              /\ ((es_folder app index path = []
                   /\ fst (run (browse app tree path)) = Raise (NotFound None))
                  \/ (es_folder app index path <> []
                      /\ folder_rows app tree (es_folder app index path)
                         = Raise IndexError
                      /\ fst (run (browse app tree path)) = Raise IndexError)
                  \/ (es_folder app index path <> []
                      /\ folder_rows app tree (es_folder app index path)
                         = Ok (map (row_of app tree) (es_folder app index path))
                      /\ fst (run (browse app tree path))
                         = Ok (render_template "folder.html"
                                 (folder_context app tree path
                                    (map (row_of app tree)
                                         (es_folder app index path)))))))).
Proof.
  destruct (browse_file_cases app tree path) as [Hfile|[filename Hfile]].
  2:{ left. eexists. split; [exact Hfile|].
      unfold browse. run_view. now rewrite Hfile. }
  right. split; [assumption|].
  unfold browse, browse_folder. run_view. rewrite Hfile, getitem_get.
  destruct (get (ES_ALIASES (config app)) tree) as [index|]; [|now left].
  right. exists index. split; [reflexivity|].
  cbn [fst snd List.app].
  destruct (es_folder app index path) as [|f fs] eqn:Efs; cbn [fst snd].
  - split; [reflexivity|]. now left.
  - rewrite (folder_rows_decide app tree (f :: fs)).
    destruct (forallb _ (f :: fs)); cbn [fst snd].
    + split; [reflexivity|]. right. right.
      split; [discriminate|]. split; reflexivity.
    + split; [reflexivity|]. right. left.
      split; [discriminate|]. split; reflexivity.
Qed.

Lemma basename_empty_iff (p : string) :
  basename p = "" <-> p = "" \/ endswith p "/" = true.
Proof.
  unfold basename. induction p as [|a p IH]; [cbn; tauto|].
  pose proof (split_nonempty "/" p) as Hne.
  pose proof (join_split "/" p) as Hjoin.
  cbn [split].
  assert (Hends : endswith (String a p) "/"
                  = match p with "" => Ascii.eqb a "/" | _ => endswith p "/" end)
    by now destruct p.
  rewrite Hends.
  destruct (Ascii.eqb_spec a "/") as [->|Hna].
  - destruct (split "/" p) as [|seg segs] eqn:E; [congruence|].
    change (last ("" :: seg :: segs) "") with (last (seg :: segs) "").
    rewrite IH. destruct p; [tauto|].
    split; [intros [H|H]; [discriminate|auto]|intros [H|H]; [discriminate|auto]].
  - destruct (split "/" p) as [|seg segs] eqn:E; [congruence|].
    destruct segs as [|seg' segs].
    + cbn [last] in *. cbn in Hjoin. subst seg.
      split; [discriminate|]. intros [H|H]; [discriminate|].
      destruct p as [|b p]; [discriminate|].
      assert (Hp : String b p = "") by (apply IH; now right).
      discriminate Hp.
    + change (last (String a seg :: seg' :: segs) "")
        with (last (seg :: seg' :: segs) "").
      rewrite IH. destruct p; [discriminate E|].
      split; [intros [H|H]; [discriminate|auto]|intros [H|H]; [discriminate|auto]].
Qed.

End FolderPages.

Lemma folder_page_inv (app : Application) (tree path : string)
      (context : list (string * value)) :
  fst (run (browse app tree path)) = Ok (render_template "folder.html" context) ->
  exists index,
    get (ES_ALIASES (config app)) tree = Some index
    /\ es_folder app index path <> []
    /\ context = folder_context app tree path
                   (map (row_of app tree) (es_folder app index path)).
Proof.
  intros H.
  destruct (browse_cases app tree path)
    as [(f & Hfile & Hrun)|(Hfile & [(_ & Hrun)|(index & Hidx & _ & Hres)])].
  - rewrite Hrun in H. cbn [fst] in H.
    destruct (browse_file_cases app tree path) as [E|[filename E]];
      rewrite E in Hfile; [discriminate|].
    injection Hfile as <-. discriminate H.
  - rewrite Hrun in H. discriminate H.
  - exists index. split; [assumption|].
    destruct Hres as [(_ & Hrun)|[(_ & _ & Hrun)|(Hne & _ & Hrun)]];
      rewrite Hrun in H; try discriminate H.
    split; [assumption|]. now injection H as <-.
Qed.

(** X2.  Whenever [browse] renders a folder page, the tree has an index
    alias and the page's rows are the index's answer for that alias and the
    requested path, one row per entry and in the index's order: every folder
    entry under the icon ["folder"], every row linking to the entry's first
    path segment in the same tree. *)
Theorem folder_page_lists_index_answer
        (app : Application) (tree path : string) (context : list (string * value)) :
  fst (run (browse app tree path)) = Ok (render_template "folder.html" context) ->
  exists index,
    get (ES_ALIASES (config app)) tree = Some index
    /\ es_folder app index path <> []
    /\ get context "files_and_folders"
       = Some (VList (map (row_of app tree) (es_folder app index path)))
    /\ get context "path" = Some (VStr path)
    /\ get context "tree" = Some (VStr tree).
Proof.
  intros H. destruct (folder_page_inv app tree path context H)
    as (index & Hidx & Hne & ->).
  exists index. repeat split; assumption || reflexivity.
Qed.

Lemma folder_page_lists_index_answer_demo :
  exists context,
    fst (run (browse Demo.app "code" "")) = Ok (render_template "folder.html" context)
    /\ exists index,
        get (ES_ALIASES (config Demo.app)) "code" = Some index
        /\ es_folder Demo.app index "" <> []
        /\ get context "files_and_folders"
           = Some (VList (map (row_of Demo.app "code") (es_folder Demo.app index "")))
        /\ get context "path" = Some (VStr "")
        /\ get context "tree" = Some (VStr "code").
Proof.
  eexists. split; [reflexivity|].
  exact (folder_page_lists_index_answer Demo.app "code" "" _ eq_refl).
Defined.

Lemma basename_empty_bool (p : string) :
  String.eqb (basename p) "" = String.eqb p "" || endswith p "/".
Proof.
  apply Bool.eq_iff_eq_true.
  rewrite orb_true_iff, !String.eqb_eq. apply basename_empty_iff.
Qed.

(** X3.  The title of a rendered folder page is the tree's name exactly
    when the requested path is empty or ends with a slash; otherwise it is
    the non-empty text after the path's last slash.  The query box is
    focused at the tree's root only. *)
Theorem folder_page_title
        (app : Application) (tree path : string) (context : list (string * value)) :
  fst (run (browse app tree path)) = Ok (render_template "folder.html" context) ->
  get context "name"
  = Some (VStr (if String.eqb path "" || endswith path "/" then tree
                else basename path))
  /\ (String.eqb path "" || endswith path "/" = false -> basename path <> "")
  /\ get context "should_autofocus_query" = Some (VBool (String.eqb path "")).
Proof.
  intros H. destruct (folder_page_inv app tree path context H)
    as (index & _ & _ & ->).
  rewrite <- basename_empty_bool.
  split; [reflexivity|]. split; [|reflexivity].
  intros E. now apply String.eqb_neq.
Qed.

Lemma folder_page_title_demo :
  exists context,
    fst (run (browse Demo.app "code" "")) = Ok (render_template "folder.html" context)
    /\ get context "name" = Some (VStr "code")
    /\ get context "should_autofocus_query" = Some (VBool true).
Proof.
  eexists. split; [reflexivity|].
  destruct (folder_page_title Demo.app "code" "" _ eq_refl) as (Hname & _ & Hfocus).
  split; [exact Hname|exact Hfocus].
Defined.

(** X4.  The index round trips of [browse], all of them: none when a
    prerendered page is served, and none when the tree has no index alias;
    otherwise exactly one, which goes to the index alias of the requested
    tree and asks for the requested path as folder.  So [browse] asks the
    index at most once, and a served page leaves the index untouched. *)
Theorem browse_index_access (app : Application) (tree path : string) :
  journal (browse app tree path)
  = match browse_file app tree path, get (ES_ALIASES (config app)) tree with
    | Raise _, Some index => [FolderAsked index path (es_folder app index path)]
    | _, _ => []
    end.
Proof.
  destruct (browse_cases app tree path)
    as [(f & Hfile & Hrun)|(Hfile & [(Hidx & Hrun)|(index & Hidx & Hj & _)])];
    rewrite Hfile; try rewrite Hidx.
  - unfold journal. now rewrite Hrun.
  - unfold journal. now rewrite Hrun.
  - exact Hj.
Qed.

Example browse_index_access_folder :
  journal (browse Demo.app "code" "")
  = [FolderAsked "dxr_code" "" [Demo.src_folder; Demo.readme]].
Proof. reflexivity. Qed.

Example browse_index_access_file :
  journal (browse Demo.app "code" "src/main.c") = [].
Proof. reflexivity. Qed.

(** ** Searches *)

Section Searches.

Lemma search_json_run (app : Application) (query : Query) (tree text : string)
      (case : bool) (off lim : Z) (cfg : Config) :
  run (_search_json app query tree text case off lim cfg)
  = (json_outcome app cfg tree text case (results query off lim),
     [ResultsAsked off lim (results query off lim)]).
Proof.
  unfold _search_json, json_outcome, json_results. run_view.
  destruct (results query off lim) as [found|[]]; reflexivity.
Qed.

Lemma search_html_run (app : Application) (req : Request) (query : Query)
      (tree text : string) (case : bool) (off lim : Z) (cfg : Config) :
  run (_search_html app req query tree text case off lim cfg)
  = if should_redirect req then
      match direct_result query with
      | Ok (Some (path, line)) =>
          (redirect_text (direct_target cfg tree path text case line),
           [DirectResultAsked (Ok (Some (path, line)))])
      | Ok None =>
          (html_outcome app cfg tree text case (results query off lim),
           [DirectResultAsked (Ok None);
            ResultsAsked off lim (results query off lim)])
      | Raise e => (Raise e, [DirectResultAsked (Raise e)])
      end
    else (html_outcome app cfg tree text case (results query off lim),
          [ResultsAsked off lim (results query off lim)]).
Proof.
  unfold _search_html, html_outcome, html_results, direct_target.
  destruct (should_redirect req); run_view.
  - destruct (direct_result query) as [[[path line]|]|e]; cbn [fst snd].
    + now destruct (redirect_text _).
    + destruct (results query off lim) as [found|[]]; reflexivity.
    + reflexivity.
  - destruct (results query off lim) as [found|[]]; reflexivity.
Qed.

(** The runs of [search]: stopped at the registry, stopped at the
    alias table, or handed to one of the two searchers with the normalized
    parameters and the query on the tree's alias. *)
Lemma search_cases (app : Application) (req : Request) (tree : string) :
  let p := normalize (values req) in
  (mem tree (TREES (config app)) = false
   /\ run (search app req tree)
      = (Raise (NotFound (Some ("No such tree as " ++ tree))), []))
  \/ (mem tree (TREES (config app)) = true
      /\ get (ES_ALIASES (config app)) tree = None
      /\ run (search app req tree) = (Raise (KeyError tree), []))
  \/ (exists index,
        mem tree (TREES (config app)) = true
        /\ get (ES_ALIASES (config app)) tree = Some index
        /\ ((_request_wants_json req = Ok true
             /\ run (search app req tree)
                = run (_search_json app
                         (es_query app index (query_text p) (is_case_sensitive p))
                         tree (query_text p) (is_case_sensitive p)
                         (offset p) (limit p) (config app)))
            \/ (_request_wants_json req = Ok false
                /\ run (search app req tree)
                   = run (_search_html app req
                            (es_query app index (query_text p) (is_case_sensitive p))
                            tree (query_text p) (is_case_sensitive p)
                            (offset p) (limit p) (config app))))).
Proof.
  intros p. unfold search. fold p.
  destruct (mem tree (TREES (config app))); cbn [negb]; [|now left].
  right. unfold run, bind at 1 2, lift at 1 2. rewrite getitem_get.
  destruct (get (ES_ALIASES (config app)) tree) as [index|]; [|now left].
  right. exists index. split; [reflexivity|]. split; [reflexivity|].
  destruct (request_wants_json_total req) as [[|] E]; rewrite E; [left|right];
    split; reflexivity.
Qed.

Lemma normalize_bounds (req : list (string * string)) :
  0 <= offset (normalize req) /\ 0 <= limit (normalize req) <= 1000.
Proof.
  unfold normalize; cbn [offset limit]. rewrite !non_negative_int_integer.
  destruct (integer (get req "offset")); destruct (integer (get req "limit")); lia.
Qed.

End Searches.

(** X5.  Whatever the request asks for, a bounded search that reaches
    the index carries the normalized offset and limit: an offset that is not
    negative and a limit between 0 and 1000.  It is the only bounded search
    of the request, made on the alias of the requested tree, preceded at most
    by one direct-result attempt that found nothing. *)
Theorem search_page_bounds
        (app : Application) (req : Request) (tree : string)
        (off lim : Z) (answer : result (list SearchResult)) :
  In (ResultsAsked off lim answer) (journal (search app req tree)) ->
  let p := normalize (values req) in
  off = offset p /\ lim = limit p /\ 0 <= off /\ 0 <= lim <= 1000
  /\ (exists index,
        get (ES_ALIASES (config app)) tree = Some index
        /\ answer = results (es_query app index (query_text p) (is_case_sensitive p))
                            off lim)
  /\ (journal (search app req tree) = [ResultsAsked off lim answer]
      \/ journal (search app req tree)
         = [DirectResultAsked (Ok None); ResultsAsked off lim answer]).
Proof.
  intros H p. pose proof (normalize_bounds (values req)) as [Ho Hl]. fold p in Ho, Hl.
  unfold journal in *.
  destruct (search_cases app req tree)
    as [(_ & Hrun)|[(_ & _ & Hrun)|(index & _ & Hidx & [(_ & Hrun)|(_ & Hrun)])]];
    fold p in Hrun; rewrite Hrun in *; cbn [snd] in *; try (now destruct H).
  - rewrite search_json_run in *. cbn [snd] in *.
    destruct H as [[= <- <- <-]|[]].
    split; [reflexivity|]. split; [reflexivity|]. split; [exact Ho|].
    split; [exact Hl|]. split; [eauto|]. now left.
  - rewrite search_html_run in *.
    destruct (should_redirect req).
    + destruct (direct_result _) as [[[path line]|]|e]; cbn [snd] in *.
      * destruct H as [[=]|[]].
      * destruct H as [[=]|[[= <- <- <-]|[]]].
        split; [reflexivity|]. split; [reflexivity|]. split; [exact Ho|].
        split; [exact Hl|]. split; [eauto|]. now right.
      * destruct H as [[=]|[]].
    + cbn [snd] in *. destruct H as [[= <- <- <-]|[]].
      split; [reflexivity|]. split; [reflexivity|]. split; [exact Ho|].
      split; [exact Hl|]. split; [eauto|]. now left.
Qed.

Lemma search_page_bounds_demo :
  In (ResultsAsked 0 1000 (Ok [("c", "src/main.c", [(12, "int main(void)")])]))
     (journal (search Demo.app
                      (Demo.script [("q", "x"); ("limit", "5000"); ("offset", "-3")])
                      "code"))
  /\ 0 <= 1000 <= 1000.
Proof.
  assert (H : In (ResultsAsked 0 1000 (Ok [("c", "src/main.c", [(12, "int main(void)")])]))
                 (journal (search Demo.app
                                  (Demo.script [("q", "x"); ("limit", "5000");
                                                ("offset", "-3")])
                                  "code")))
    by (vm_compute; left; reflexivity).
  split; [exact H|].
  exact (proj1 (proj2 (proj2 (proj2 (search_page_bounds _ _ _ _ _ _ H))))).
Defined.

(** X6.  A search answered in JSON never asks the index for a direct
    result: its only possible round trip is the bounded search. *)
Theorem json_search_never_asks_direct_result
        (app : Application) (req : Request) (tree : string) :
  _request_wants_json req = Ok true ->
  (forall answer, ~ In (DirectResultAsked answer) (journal (search app req tree)))
  /\ (journal (search app req tree) = []
      \/ exists answer,
          journal (search app req tree)
          = [ResultsAsked (offset (normalize (values req)))
                          (limit (normalize (values req))) answer]).
Proof.
  intros Hjson. unfold journal.
  destruct (search_cases app req tree)
    as [(_ & Hrun)|[(_ & _ & Hrun)|(index & _ & Hidx & [(_ & Hrun)|(Hhtml & _)])]];
    try rewrite Hrun; cbn [snd].
  - split; [intros a []|now left].
  - split; [intros a []|now left].
  - rewrite search_json_run. cbn [snd].
    split; [intros a [[=]|[]]|right; eauto].
  - congruence.
Qed.

Lemma json_search_never_asks_direct_result_demo :
  _request_wants_json (Demo.script [("q", "main"); ("redirect", "true")]) = Ok true
  /\ forall answer,
      ~ In (DirectResultAsked answer)
           (journal (search Demo.app
                            (Demo.script [("q", "main"); ("redirect", "true")])
                            "code")).
Proof.
  split; [reflexivity|].
  exact (proj1 (json_search_never_asks_direct_result
                  Demo.app (Demo.script [("q", "main"); ("redirect", "true")])
                  "code" eq_refl)).
Defined.

(** X7.  The two searchers ask the index for the same page and build
    their results from the same hits: with the same query, offset and limit,
    and no direct hit in the way, the JSON envelope and the search page carry
    encodings of one list of hits, of equal length, and the journals differ at
    most by the direct-result attempt. *)
Theorem search_shapes_share_page
        (app : Application) (req : Request) (query : Query)
        (tree text : string) (case : bool) (off lim : Z) (cfg : Config)
        (found : list SearchResult) :
  results query off lim = Ok found ->
  should_redirect req = false \/ direct_result query = Ok None ->
  (exists envelope page,
      fst (run (_search_json app query tree text case off lim cfg))
      = Ok (jsonify (VDict envelope))
      /\ fst (run (_search_html app req query tree text case off lim cfg))
         = Ok (render_template "search.html" page)
      /\ get envelope "results" = Some (VList (json_results found))
      /\ get page "results" = Some (VList (html_results found))
      /\ length (json_results found) = length found
      /\ length (html_results found) = length found
      /\ get envelope "tree_tuples" = get page "tree_tuples")
  /\ filter (fun e => match e with ResultsAsked _ _ _ => true | _ => false end)
            (journal (_search_html app req query tree text case off lim cfg))
     = journal (_search_json app query tree text case off lim cfg).
Proof.
  intros Hres Hdirect. unfold journal.
  rewrite search_json_run, search_html_run, Hres. cbn [fst snd json_outcome].
  assert (E : (if should_redirect req
               then match direct_result query with
                    | Ok (Some (path, line)) =>
                        (redirect_text (direct_target cfg tree path text case line),
                         [DirectResultAsked (Ok (Some (path, line)))])
                    | Ok None =>
                        (html_outcome app cfg tree text case (Ok found),
                         [DirectResultAsked (Ok None);
                          ResultsAsked off lim (Ok found)])
                    | Raise e => (Raise e, [DirectResultAsked (Raise e)])
                    end
               else (html_outcome app cfg tree text case (Ok found),
                     [ResultsAsked off lim (Ok found)]))
              = (html_outcome app cfg tree text case (Ok found),
                 if should_redirect req
                 then [DirectResultAsked (Ok None); ResultsAsked off lim (Ok found)]
                 else [ResultsAsked off lim (Ok found)])).
  { destruct Hdirect as [-> | ->]; [reflexivity|].
    now destruct (should_redirect req). }
  rewrite E. cbn [fst snd html_outcome]. split.
  - do 2 eexists. split; [reflexivity|]. split; [reflexivity|].
    split; [reflexivity|]. split; [reflexivity|].
    unfold json_results, html_results. rewrite !length_map.
    repeat split.
  - now destruct (should_redirect req).
Qed.

Lemma search_shapes_share_page_demo :
  exists envelope page,
    fst (run (_search_json Demo.app (Demo.query "dxr_code" "x" false)
                           "code" "x" false 0 100 Demo.config))
    = Ok (jsonify (VDict envelope))
    /\ fst (run (_search_html Demo.app (Demo.browser [("q", "x")])
                              (Demo.query "dxr_code" "x" false)
                              "code" "x" false 0 100 Demo.config))
       = Ok (render_template "search.html" page)
    /\ get envelope "results"
       = Some (VList (json_results [("c", "src/main.c", [(12, "int main(void)")])]))
    /\ get page "results"
       = Some (VList (html_results [("c", "src/main.c", [(12, "int main(void)")])])).
Proof.
  destruct (search_shapes_share_page
              Demo.app (Demo.browser [("q", "x")]) (Demo.query "dxr_code" "x" false)
              "code" "x" false 0 100 Demo.config
              [("c", "src/main.c", [(12, "int main(void)")])]
              eq_refl (or_introl eq_refl))
    as [(envelope & page & H1 & H2 & H3 & H4 & _) _].
  exists envelope, page. repeat split; assumption.
Defined.

(** X8.  Only a bad term is turned into a 400.  When the index answers
    the bounded search of a request with any other failure, [search] raises
    that very failure. *)
Theorem search_other_failures_propagate
        (app : Application) (req : Request) (tree : string)
        (off lim : Z) (e : exn) :
  In (ResultsAsked off lim (Raise e)) (journal (search app req tree)) ->
  (forall reason, e <> BadTerm reason) ->
  fst (run (search app req tree)) = Raise e.
Proof.
  intros H Hother. unfold journal in H.
  assert (Hj : forall cfg text case,
             json_outcome app cfg tree text case (Raise e) = Raise e).
  { intros. destruct e; try reflexivity. now destruct (Hother reason). }
  assert (Hh : forall cfg text case,
             html_outcome app cfg tree text case (Raise e) = Raise e).
  { intros. destruct e; try reflexivity. now destruct (Hother reason). }
  destruct (search_cases app req tree)
    as [(_ & Hrun)|[(_ & _ & Hrun)|(index & _ & Hidx & [(_ & Hrun)|(_ & Hrun)])]];
    rewrite Hrun in *; cbn [fst snd] in *; try (now destruct H).
  - rewrite search_json_run in *. cbn [fst snd] in *.
    destruct H as [[= _ _ Hans]|[]].
    exact (eq_trans (f_equal (json_outcome _ _ _ _ _) Hans) (Hj _ _ _)).
  - rewrite search_html_run in *.
    destruct (should_redirect req).
    + destruct (direct_result _) as [[[path line]|]|e']; cbn [fst snd] in *.
      * destruct H as [[=]|[]].
      * destruct H as [[=]|[[= _ _ Hans]|[]]].
        exact (eq_trans (f_equal (html_outcome _ _ _ _ _) Hans) (Hh _ _ _)).
      * destruct H as [[=]|[]].
    + cbn [fst snd] in *. destruct H as [[= _ _ Hans]|[]].
      exact (eq_trans (f_equal (html_outcome _ _ _ _ _) Hans) (Hh _ _ _)).
Qed.

Lemma search_other_failures_propagate_demo :
  In (ResultsAsked 0 100 (Raise (ValueError "No JSON object could be decoded")))
     (journal (search Demo.app_without_index (Demo.script [("q", "x")]) "code"))
  /\ serve (search Demo.app_without_index (Demo.script [("q", "x")]) "code")
     = Unhandled (ValueError "No JSON object could be decoded").
Proof.
  assert (H : In (ResultsAsked 0 100 (Raise (ValueError "No JSON object could be decoded")))
                 (journal (search Demo.app_without_index
                                  (Demo.script [("q", "x")]) "code")))
    by (vm_compute; left; reflexivity).
  split; [exact H|].
  unfold serve.
  rewrite (search_other_failures_propagate
             Demo.app_without_index (Demo.script [("q", "x")]) "code" 0 100
             (ValueError "No JSON object could be decoded") H
             (fun reason E => eq_ind (ValueError "No JSON object could be decoded")
                                (fun e => match e with ValueError _ => True | _ => False end)
                                I _ E)).
  reflexivity.
Defined.

(** ** The direct-result redirect *)

Section DirectRedirect.

Lemma avoids_contains (chars s : string) (c : ascii) :
  avoids chars s = true -> In c (list_ascii_of_string chars) -> contains c s = false.
Proof.
  unfold avoids. rewrite forallb_forall. intros H Hin.
  apply negb_true_iff. now apply H.
Qed.

Lemma avoids_app (chars a b : string) :
  avoids chars (a ++ b) = avoids chars a && avoids chars b.
Proof.
  unfold avoids. induction (list_ascii_of_string chars) as [|c l IH]; [reflexivity|].
  cbn [forallb]. rewrite IH, contains_app, negb_orb.
  destruct (contains c a), (contains c b), (forallb _ l), (forallb _ l);
    reflexivity.
Qed.

Lemma url_unquote_plus_plain (s : string) :
  contains "+" s = false -> contains "%" s = false -> url_unquote_plus s = s.
Proof.
  induction s as [|a s IH]; [reflexivity|]. cbn [contains url_unquote_plus].
  destruct (Ascii.eqb a "+"); [discriminate|].
  destruct (Ascii.eqb a "%"); [discriminate|].
  intros H1 H2. now rewrite IH.
Qed.

Lemma direct_target_shape (cfg : Config) (tree path text : string) (case : bool)
      (line : Z) :
  direct_target cfg tree path text case line
  = ((WWW_ROOT cfg ++ "/" ++ tree ++ "/source/" ++ path)
       ++ String "?" ("from=" ++ text ++ (if case then "&case=true" else "")))
      ++ String "#" (format_int line).
Proof.
  unfold direct_target. rewrite !append_assoc. cbn [append].
  now rewrite ?append_assoc.
Qed.

Lemma link_params_direct_target (cfg : Config) (tree path text : string)
      (case : bool) (line : Z) :
  avoids "?#" (WWW_ROOT cfg ++ tree ++ path) = true ->
  avoids "#&+%" text = true ->
  link_params (direct_target cfg tree path text case line) = redirect_args text case.
Proof.
  intros Hbase Htext.
  rewrite !avoids_app, !andb_true_iff in Hbase. destruct Hbase as (Hr & Ht & Hp).
  assert (Hin : forall c chars s, avoids chars s = true ->
                                  contains c chars = true -> contains c s = false).
  { intros c chars s H Hc. apply (avoids_contains chars s c H).
    clear H. induction chars as [|x chars IH]; [discriminate|].
    cbn [contains list_ascii_of_string In] in *.
    destruct (Ascii.eqb_spec x c); [now left|right; auto]. }
  assert (Hbq : contains "?" (WWW_ROOT cfg ++ "/" ++ tree ++ "/source/" ++ path) = false).
  { rewrite !contains_app, (Hin "?"%char _ _ Hr eq_refl), (Hin "?"%char _ _ Ht eq_refl),
      (Hin "?"%char _ _ Hp eq_refl). reflexivity. }
  assert (Hbf : contains "#" (WWW_ROOT cfg ++ "/" ++ tree ++ "/source/" ++ path) = false).
  { rewrite !contains_app, (Hin "#"%char _ _ Hr eq_refl), (Hin "#"%char _ _ Ht eq_refl),
      (Hin "#"%char _ _ Hp eq_refl). reflexivity. }
  pose proof (Hin "#"%char _ _ Htext eq_refl) as Htf.
  pose proof (Hin "&"%char _ _ Htext eq_refl) as Hta.
  pose proof (Hin "+"%char _ _ Htext eq_refl) as Htp.
  pose proof (Hin "%"%char _ _ Htext eq_refl) as Htc.
  rewrite direct_target_shape. unfold link_params.
  rewrite (split1_first "#").
  2:{ rewrite contains_app, Hbf. cbn [contains orb].
      change (Ascii.eqb "?" "#") with false. cbn iota.
      change ("from=" ++ text ++ (if case then "&case=true" else ""))
        with (String "f" (String "r" (String "o" (String "m" (String "="
                (text ++ (if case then "&case=true" else ""))))))).
      cbn [contains].
      change (Ascii.eqb "f" "#") with false. change (Ascii.eqb "r" "#") with false.
      change (Ascii.eqb "o" "#") with false. change (Ascii.eqb "m" "#") with false.
      change (Ascii.eqb "=" "#") with false. cbn iota.
      rewrite contains_app, Htf. now destruct case. }
  cbn [fst]. rewrite (split1_first "?") by exact Hbq.
  unfold url_decode, redirect_args.
  assert (Hpair : decode_pair ("from=" ++ text) = ("from", text)).
  { unfold decode_pair.
    change (split1 "=" ("from=" ++ text)) with ("from", Some text).
    cbn iota. change (url_unquote_plus "from") with "from".
    now rewrite url_unquote_plus_plain. }
  assert (Hamp : contains "&" ("from=" ++ text) = false).
  { change ("from=" ++ text)
      with (String "f" (String "r" (String "o" (String "m" (String "=" text))))).
    cbn [contains].
    change (Ascii.eqb "f" "&") with false. change (Ascii.eqb "r" "&") with false.
    change (Ascii.eqb "o" "&") with false. change (Ascii.eqb "m" "&") with false.
    change (Ascii.eqb "=" "&") with false. cbn iota. exact Hta. }
  destruct case.
  - change ("from=" ++ text ++ "&case=true")
      with (String "f" (String "r" (String "o" (String "m" (String "="
              (text ++ "&case=true")))))).
    replace (String "f" (String "r" (String "o" (String "m" (String "="
              (text ++ "&case=true"))))))
      with (("from=" ++ text) ++ String "&" "case=true") by reflexivity.
    rewrite (split_first "&") by exact Hamp.
    change (split "&" "case=true") with ["case=true"].
    cbn [filter map].
    change (String.eqb ("from=" ++ text) "") with false.
    change (String.eqb "case=true" "") with false.
    cbn [negb map]. rewrite Hpair. reflexivity.
  - replace ("from=" ++ text ++ "") with ("from=" ++ text).
    2:{ f_equal. clear. induction text as [|x t IH]; cbn; [reflexivity|now f_equal]. }
    rewrite (split_absent "&") by exact Hamp.
    cbn [filter map].
    change (String.eqb ("from=" ++ text) "") with false.
    cbn [negb map]. rewrite Hpair. reflexivity.
Qed.

Lemma url_quote_app (safe unsafe a b : string) :
  url_quote safe unsafe (a ++ b)
  = url_quote safe unsafe a ++ url_quote safe unsafe b.
Proof.
  induction a as [|c a IH]; [reflexivity|]. cbn [append url_quote].
  destruct ((always_safe c || contains c safe) && negb (contains c unsafe)).
  - cbn [append]. now rewrite IH.
  - now rewrite IH, append_assoc.
Qed.

(** Quoting brings in percent signs, letters and digits only. *)
Lemma url_quote_keeps_absent (c : ascii) (safe unsafe s : string) :
  contains c s = false -> is_alnum c = false -> Ascii.eqb c "%" = false ->
  contains c (url_quote safe unsafe s) = false.
Proof.
  intros Hs Halnum Hpct.
  assert (Hne : forall x, is_alnum x = true -> Ascii.eqb x c = false).
  { intros x Hx. destruct (Ascii.eqb_spec x c) as [->|]; congruence. }
  induction s as [|a s IH]; [reflexivity|].
  cbn [contains] in Hs. destruct (Ascii.eqb a c) eqn:Ea; [discriminate|].
  cbn [url_quote].
  destruct ((always_safe a || contains a safe) && negb (contains a unsafe)).
  - cbn [contains]. rewrite Ea. now apply IH.
  - destruct (quote_byte_decodes a) as (h & l & x & y & -> & Hh & Hl & _).
    cbn [append contains].
    rewrite (Hne h Hh), (Hne l Hl), Ascii.eqb_sym, Hpct. now apply IH.
Qed.

(** A text without plus and percent signs is decoded back from any
    quoting of it. *)
Lemma url_unquote_quote_plain (safe unsafe s : string) :
  contains "+" s = false -> contains "%" s = false ->
  url_unquote_plus (url_quote safe unsafe s) = s.
Proof.
  induction s as [|a s IH]; [reflexivity|]. cbn [contains].
  destruct (Ascii.eqb a "+") eqn:Eplus; [discriminate|].
  destruct (Ascii.eqb a "%") eqn:Epct; [discriminate|].
  intros H1 H2. cbn [url_quote].
  destruct ((always_safe a || contains a safe) && negb (contains a unsafe)).
  - cbn [url_unquote_plus]. now rewrite Eplus, Epct, IH.
  - destruct (quote_byte_decodes a) as (h & l & x & y & -> & _ & _ & Hx & Hy & Ha).
    cbn [append url_unquote_plus].
    change (Ascii.eqb "%" "+") with false.
    change (Ascii.eqb "%" "%") with true. cbn iota.
    now rewrite Hx, Hy, Ha, IH.
Qed.

Lemma url_quote_nonempty (safe unsafe s : string) :
  String.eqb s "" = false -> String.eqb (url_quote safe unsafe s) "" = false.
Proof.
  destruct s as [|c s]; [discriminate|]. intros _. cbn [url_quote].
  now destruct ((always_safe c || contains c safe) && negb (contains c unsafe)).
Qed.

Lemma format_int_nonempty (n : Z) : String.eqb (format_int n) "" = false.
Proof.
  unfold format_int. destruct (Z.to_int n) as [d|d]; [|reflexivity].
  cbn [NilZero.string_of_int]. now destruct d.
Qed.

(** The parameters a client sends when it follows a location of the
    shape of the direct-result redirect, whose query text [quoted] decodes
    to [text]. *)
Lemma link_params_redirect_shape (base quoted frag text : string) (case : bool) :
  contains "?" base = false -> contains "#" base = false ->
  contains "#" quoted = false -> contains "&" quoted = false ->
  url_unquote_plus quoted = text ->
  link_params ((base ++ String "?" ("from=" ++ quoted
                                     ++ (if case then "&case=true" else "")))
                 ++ String "#" frag)
  = redirect_args text case.
Proof.
  intros Hbq Hbf Htf Hta Hdec. unfold link_params.
  rewrite (split1_first "#").
  2:{ rewrite contains_app, Hbf. cbn [contains orb].
      change (Ascii.eqb "?" "#") with false. cbn iota.
      change ("from=" ++ quoted ++ (if case then "&case=true" else ""))
        with (String "f" (String "r" (String "o" (String "m" (String "="
                (quoted ++ (if case then "&case=true" else ""))))))).
      cbn [contains].
      change (Ascii.eqb "f" "#") with false. change (Ascii.eqb "r" "#") with false.
      change (Ascii.eqb "o" "#") with false. change (Ascii.eqb "m" "#") with false.
      change (Ascii.eqb "=" "#") with false. cbn iota.
      rewrite contains_app, Htf. now destruct case. }
  cbn [fst]. rewrite (split1_first "?") by exact Hbq.
  unfold url_decode, redirect_args.
  assert (Hpair : decode_pair ("from=" ++ quoted) = ("from", text)).
  { unfold decode_pair.
    change (split1 "=" ("from=" ++ quoted)) with ("from", Some quoted).
    cbn iota. change (url_unquote_plus "from") with "from".
    now rewrite Hdec. }
  assert (Hamp : contains "&" ("from=" ++ quoted) = false).
  { change ("from=" ++ quoted)
      with (String "f" (String "r" (String "o" (String "m" (String "=" quoted))))).
    cbn [contains].
    change (Ascii.eqb "f" "&") with false. change (Ascii.eqb "r" "&") with false.
    change (Ascii.eqb "o" "&") with false. change (Ascii.eqb "m" "&") with false.
    change (Ascii.eqb "=" "&") with false. cbn iota. exact Hta. }
  destruct case.
  - change ("from=" ++ quoted ++ "&case=true")
      with (String "f" (String "r" (String "o" (String "m" (String "="
              (quoted ++ "&case=true")))))).
    replace (String "f" (String "r" (String "o" (String "m" (String "="
              (quoted ++ "&case=true"))))))
      with (("from=" ++ quoted) ++ String "&" "case=true") by reflexivity.
    rewrite (split_first "&") by exact Hamp.
    change (split "&" "case=true") with ["case=true"].
    cbn [filter map].
    change (String.eqb ("from=" ++ quoted) "") with false.
    change (String.eqb "case=true" "") with false.
    cbn [negb map]. rewrite Hpair. reflexivity.
  - replace ("from=" ++ quoted ++ "") with ("from=" ++ quoted).
    2:{ f_equal. clear. induction quoted as [|x t IH]; cbn; [reflexivity|now f_equal]. }
    rewrite (split_absent "&") by exact Hamp.
    cbn [filter map].
    change (String.eqb ("from=" ++ quoted) "") with false.
    cbn [negb map]. rewrite Hpair. reflexivity.
Qed.

Lemma scheme_re_match_slash (s : string) :
  scheme_re_match (String "/" s) = false.
Proof.
  unfold scheme_re_match. cbn [all_chars].
  change (scheme_char "/") with false. cbn [andb orb].
  rewrite andb_false_r. cbn [orb].
  assert (H : exists t, chomp (String "/" s) = String "/" t).
  { cbn [chomp]. destruct s; [|eauto].
    change (Ascii.eqb "/" "010") with false. eauto. }
  destruct H as [t ->]. cbn [all_chars].
  change (scheme_char "/") with false. cbn [andb]. apply andb_false_r.
Qed.

Lemma prefix_empty (s : string) : String.prefix "" s = true.
Proof. now destruct s. Qed.

Lemma startswith_slash (s : string) :
  startswith s "/"
  = match s with String a _ => Ascii.eqb a "/" | EmptyString => false end.
Proof.
  unfold startswith. destruct s as [|a r]; [reflexivity|]. cbn [String.prefix].
  destruct (ascii_dec "/" a) as [<-|Hn].
  - now rewrite prefix_empty.
  - symmetry. apply Ascii.eqb_neq. congruence.
Qed.

Lemma startswith_slashes (s : string) :
  startswith s "//"
  = match s with
    | String a r => Ascii.eqb a "/" && startswith r "/"
    | EmptyString => false
    end.
Proof.
  unfold startswith. destruct s as [|a r]; [reflexivity|]. cbn [String.prefix].
  destruct (ascii_dec "/" a) as [<-|Hn]; [reflexivity|].
  symmetry. apply andb_false_iff. left. apply Ascii.eqb_neq. congruence.
Qed.

Lemma site_path_inv (s : string) :
  site_path s = true ->
  exists r, s = String "/" r /\ startswith r "/" = false.
Proof.
  unfold site_path. rewrite startswith_slashes, startswith_slash.
  destruct s as [|c r]; [discriminate|].
  destruct (Ascii.eqb_spec c "/") as [->|]; [|discriminate].
  cbn [andb]. rewrite negb_true_iff. eauto.
Qed.

Lemma site_path_intro (r : string) :
  startswith r "/" = false -> site_path (String "/" r) = true.
Proof.
  intros H. unfold site_path. rewrite startswith_slashes, startswith_slash, H.
  reflexivity.
Qed.

Lemma startswith_slash_app (r x : string) (c : ascii) :
  startswith r "/" = false -> c <> "/"%char ->
  startswith (r ++ String c x) "/" = false.
Proof.
  rewrite !startswith_slash. destruct r as [|d r]; cbn [append]; [|auto].
  intros _ Hc. now apply Ascii.eqb_neq.
Qed.

(** [url_parse] of a path on the site, followed by a query string and a
    fragment. *)
Lemma url_parse_site_path (base qs frag : string) :
  site_path base = true ->
  contains "?" base = false -> contains "#" base = false ->
  contains "#" qs = false ->
  url_parse ((base ++ String "?" qs) ++ String "#" frag)
  = Ok {| scheme := ""; netloc := ""; path := base; query := qs;
          fragment := frag |}.
Proof.
  intros Hsite Hbq Hbf Hqf.
  destruct (site_path_inv base Hsite) as [r [-> Hr]]. rename r into base.
  assert (Hnet : startswith ((String "/" base ++ String "?" qs) ++ String "#" frag)
                            "//" = false).
  { rewrite startswith_slashes. cbn [append].
    change (Ascii.eqb "/" "/") with true. cbn [andb].
    rewrite append_assoc. apply startswith_slash_app; [exact Hr|discriminate]. }
  assert (Hfrag : contains "#" (String "/" base ++ String "?" qs) = false).
  { rewrite contains_app, Hbf. cbn [contains orb].
    change (Ascii.eqb "?" "#") with false. exact Hqf. }
  unfold url_parse.
  assert (Hscheme :
            match split1 ":" ((String "/" base ++ String "?" qs) ++ String "#" frag) with
            | (before, Some rest) =>
                if negb (String.eqb before "") && scheme_re_match before
                   && (String.eqb rest "" || negb (all_chars is_decimal rest))
                then (lower before, rest)
                else ("", (String "/" base ++ String "?" qs) ++ String "#" frag)
            | (_, None) => ("", (String "/" base ++ String "?" qs) ++ String "#" frag)
            end
            = ("", (String "/" base ++ String "?" qs) ++ String "#" frag)).
  { cbn [append split1]. change (Ascii.eqb "/" ":") with false. cbn iota.
    destruct (split1 ":" _) as [before [rest|]]; [|reflexivity].
    now rewrite scheme_re_match_slash, andb_false_r. }
  rewrite Hscheme, Hnet. cbn [rbind].
  rewrite (split1_first "#") by exact Hfrag.
  rewrite (split1_first "?") by exact Hbq.
  reflexivity.
Qed.

(** The conversion of such a location quotes its three parts and puts
    them together again. *)
Lemma iri_to_uri_site_path (base qs frag : string) :
  site_path base = true ->
  contains "?" base = false -> contains "#" base = false ->
  contains "#" qs = false ->
  String.eqb qs "" = false -> String.eqb frag "" = false ->
  iri_to_uri false ((base ++ String "?" qs) ++ String "#" frag)
  = Ok ((url_quote "/:~+%" "" base
           ++ String "?" (url_quote "%&[]:;$*()+,!?*/=" "" qs))
          ++ String "#" (url_quote "=%&[]:;$()+,!?*/" "" frag)).
Proof.
  intros Hsite Hbq Hbf Hqf Hqs Hfrag.
  unfold iri_to_uri. cbn [andb].
  rewrite (url_parse_site_path base qs frag Hsite Hbq Hbf Hqf).
  cbn [rbind]. unfold url_unparse.
  cbn [scheme netloc path query fragment String.eqb negb andb orb].
  now rewrite (url_quote_nonempty _ _ _ Hqs), (url_quote_nonempty _ _ _ Hfrag).
Qed.

Lemma site_path_app (a b : string) :
  site_path (a ++ "/") = true -> startswith b "/" = false ->
  site_path ((a ++ "/") ++ b) = true.
Proof.
  intros H Hb. destruct (site_path_inv _ H) as [r [E Hr]].
  rewrite E. cbn [append]. apply site_path_intro.
  rewrite startswith_slash in *.
  destruct r as [|d r]; [|exact Hr]. exact Hb.
Qed.

(** What [_search_html] answers on a direct hit when the location is a
    path on the site. *)
Lemma direct_redirect_site_path (cfg : Config) (tree path text : string)
      (case : bool) (line : Z) :
  site_path (WWW_ROOT cfg ++ "/" ++ tree ++ "/") = true ->
  avoids "?#" (WWW_ROOT cfg ++ tree ++ path) = true ->
  avoids "#&+%" text = true ->
  exists target,
    iri_to_uri false (direct_target cfg tree path text case line) = Ok target
    /\ link_params target = redirect_args text case.
Proof.
  intros Hsite Hbase Htext.
  rewrite !avoids_app, !andb_true_iff in Hbase. destruct Hbase as (Hr & Ht & Hp).
  assert (Hin : forall c chars s, avoids chars s = true ->
                                  contains c chars = true -> contains c s = false).
  { intros c chars s H Hc. apply (avoids_contains chars s c H).
    clear H. induction chars as [|x chars IH]; [discriminate|].
    cbn [contains list_ascii_of_string In] in *.
    destruct (Ascii.eqb_spec x c); [now left|right; auto]. }
  set (base := WWW_ROOT cfg ++ "/" ++ tree ++ "/source/" ++ path).
  assert (Hbq : contains "?" base = false).
  { unfold base.
    rewrite !contains_app, (Hin "?"%char _ _ Hr eq_refl), (Hin "?"%char _ _ Ht eq_refl),
      (Hin "?"%char _ _ Hp eq_refl). reflexivity. }
  assert (Hbf : contains "#" base = false).
  { unfold base.
    rewrite !contains_app, (Hin "#"%char _ _ Hr eq_refl), (Hin "#"%char _ _ Ht eq_refl),
      (Hin "#"%char _ _ Hp eq_refl). reflexivity. }
  assert (Hbs : site_path base = true).
  { unfold base.
    replace (WWW_ROOT cfg ++ "/" ++ tree ++ "/source/" ++ path)
      with (((WWW_ROOT cfg ++ "/" ++ tree) ++ "/") ++ ("source/" ++ path))
      by (rewrite !append_assoc; reflexivity).
    apply site_path_app; [|reflexivity]. now rewrite !append_assoc. }
  pose proof (Hin "#"%char _ _ Htext eq_refl) as Htf.
  pose proof (Hin "&"%char _ _ Htext eq_refl) as Hta.
  pose proof (Hin "+"%char _ _ Htext eq_refl) as Htp.
  pose proof (Hin "%"%char _ _ Htext eq_refl) as Htc.
  set (qs := "from=" ++ text ++ (if case then "&case=true" else "")).
  assert (Hqf : contains "#" qs = false).
  { unfold qs. rewrite !contains_app, Htf. now destruct case. }
  rewrite direct_target_shape. fold base. fold qs.
  rewrite (iri_to_uri_site_path base qs (format_int line) Hbs Hbq Hbf Hqf eq_refl
             (format_int_nonempty line)).
  eexists. split; [reflexivity|].
  assert (Hqs : url_quote "%&[]:;$*()+,!?*/=" "" qs
                = "from=" ++ url_quote "%&[]:;$*()+,!?*/=" "" text
                    ++ (if case then "&case=true" else "")).
  { unfold qs. rewrite !url_quote_app. now destruct case. }
  rewrite Hqs.
  apply link_params_redirect_shape.
  - now apply url_quote_avoids.
  - now apply url_quote_avoids.
  - now apply url_quote_keeps_absent.
  - now apply url_quote_keeps_absent.
  - now apply url_unquote_quote_plain.
Qed.

End DirectRedirect.

(** X9.  With [redirect=true] and a direct hit, [_search_html] answers
    with a redirect and never runs the bounded search.  The view puts the
    query text into the location as it is, without quoting it for a query
    string: the page the target points at receives the text as its [from]
    parameter, and [case=true] exactly for a case-sensitive query, provided
    the text holds none of [#], [&], [+], [%] and root URL, tree and path
    hold neither [?] nor [#].  The location is a text, which [redirect]
    converts: for that it has to be ASCII without whitespace, which the
    conversion leaves alone, or a path on the site. *)
Theorem direct_redirect_carries_plain_query
        (app : Application) (req : Request) (query : Query)
        (tree text : string) (case : bool) (off lim : Z) (cfg : Config)
        (path : string) (line : Z) :
  should_redirect req = true ->
  direct_result query = Ok (Some (path, line)) ->
  avoids "?#" (WWW_ROOT cfg ++ tree ++ path) = true ->
  avoids "#&+%" text = true ->
  ascii_word (direct_target cfg tree path text case line) = true
  \/ site_path (WWW_ROOT cfg ++ "/" ++ tree ++ "/") = true ->
  exists target,
    run (_search_html app req query tree text case off lim cfg)
    = (Ok (redirect target), [DirectResultAsked (Ok (Some (path, line)))])
    /\ link_params target = redirect_args text case
    /\ (ascii_word (direct_target cfg tree path text case line) = true ->
        target = direct_target cfg tree path text case line).
Proof.
  intros Hred Hhit Hbase Htext Hloc.
  rewrite search_html_run, Hred, Hhit. unfold redirect_text, iri_to_uri.
  cbn [andb].
  destruct (ascii_word (direct_target cfg tree path text case line)) eqn:Eword.
  - exists (direct_target cfg tree path text case line).
    split; [reflexivity|]. split; [|reflexivity].
    now apply link_params_direct_target.
  - destruct Hloc as [Hloc|Hsite]; [discriminate Hloc|].
    destruct (direct_redirect_site_path cfg tree path text case line
                                        Hsite Hbase Htext) as [target [Hconv Hparams]].
    unfold iri_to_uri in Hconv. cbn [andb] in Hconv.
    exists target. rewrite Hconv. split; [reflexivity|].
    split; [exact Hparams|discriminate].
Qed.

Lemma direct_redirect_carries_plain_query_demo :
  exists target,
    run (_search_html Demo.app (Demo.browser [("q", "main"); ("redirect", "true")])
                      (Demo.query "dxr_code" "main" true)
                      "code" "main" true 0 100 Demo.config)
    = (Ok (redirect target), [DirectResultAsked (Ok (Some ("src/main.c", 12)))])
    /\ link_params target = [("from", "main"); ("case", "true")].
Proof.
  destruct (direct_redirect_carries_plain_query
              Demo.app (Demo.browser [("q", "main"); ("redirect", "true")])
              (Demo.query "dxr_code" "main" true)
              "code" "main" true 0 100 Demo.config "src/main.c" 12
              eq_refl eq_refl eq_refl eq_refl (or_introl eq_refl))
    as (target & Hrun & Hparams & _).
  exists target. split; assumption.
Defined.

(** A query text with a space: the location is converted, and the page
    it points at still receives the text. *)
Example direct_redirect_text_with_space :
  let target := "/dxr/code/source/src/main.c?from=two%20words#12" in
  fst (run (_search_html Demo.app (Demo.browser [("redirect", "true")])
                         {| direct_result := Ok (Some ("src/main.c", 12));
                            results := fun _ _ => Ok [] |}
                         "code" "two words" false 0 100 Demo.config))
  = Ok (redirect target)
  /\ link_params target = [("from", "two words")].
Proof. split; reflexivity. Qed.

(** A root that is no path on the site and no URL either: with a text
    that has to be converted, the conversion fails and so does the view. *)
Example direct_redirect_malformed_root :
  fst (run (_search_html Demo.app (Demo.browser [("redirect", "true")])
                         {| direct_result := Ok (Some ("src/main.c", 12));
                            results := fun _ _ => Ok [] |}
                         "code" "two words" false 0 100
                         {| WWW_ROOT := "//[";
                            DEFAULT_TREE := "code";
                            TREES := [("code", "The code")];
                            ES_ALIASES := [("code", "dxr_code")];
                            GENERATED_DATE := "2015-01-01";
                            GOOGLE_ANALYTICS_KEY := "" |}))
  = Raise (ValueError "Invalid IPv6 URL").
Proof. reflexivity. Qed.

Example direct_redirect_reserved_characters :
  link_params (direct_target Demo.config "code" "src/main.c" "a&b#c" false 12)
  = [("from", "a"); ("b", "")].
Proof. reflexivity. Qed.

(** ** How a search can fail *)

(** X10.  Every way [search] can raise.  It raises [NotFound] when the
    tree is not in the registry, and [KeyError] when the tree is in the
    registry but has no index alias; in both cases the index was not asked
    anything.  With an alias, it raises exactly what comes up from below: the
    failure of the direct-result attempt of an HTML-shaped request with
    [redirect=true], the failure to convert the location of a direct hit, or
    a failure of the bounded search that is not a bad term.  Nothing else
    makes it raise. *)
Theorem search_failure_modes
        (app : Application) (req : Request) (tree : string) (e : exn) :
  let p := normalize (values req) in
  let query index := es_query app index (query_text p) (is_case_sensitive p) in
  (fst (run (search app req tree)) = Raise e
   <-> (e = NotFound (Some ("No such tree as " ++ tree))
        /\ mem tree (TREES (config app)) = false)
       \/ (e = KeyError tree
           /\ mem tree (TREES (config app)) = true
           /\ get (ES_ALIASES (config app)) tree = None)
       \/ (exists index,
             mem tree (TREES (config app)) = true
             /\ get (ES_ALIASES (config app)) tree = Some index
             /\ ((_request_wants_json req = Ok false
                  /\ should_redirect req = true
                  /\ direct_result (query index) = Raise e)
                 \/ (_request_wants_json req = Ok false
                     /\ should_redirect req = true
                     /\ exists path line,
                         direct_result (query index) = Ok (Some (path, line))
                         /\ iri_to_uri true
                              (direct_target (config app) tree path (query_text p)
                                             (is_case_sensitive p) line)
                            = Raise e)
                 \/ ((_request_wants_json req = Ok true
                      \/ should_redirect req = false
                      \/ direct_result (query index) = Ok None)
                     /\ results (query index) (offset p) (limit p) = Raise e
                     /\ forall reason, e <> BadTerm reason))))
  /\ (mem tree (TREES (config app)) = false
      \/ get (ES_ALIASES (config app)) tree = None ->
      journal (search app req tree) = []).
Proof.
  intros p query.
  assert (Hj : forall cfg text case answer,
             json_outcome app cfg tree text case answer = Raise e
             <-> answer = Raise e /\ forall reason, e <> BadTerm reason).
  { intros cfg text case [found|e'].
    - split; [discriminate|intros [[=] _]].
    - split.
      + intros H. destruct e'; cbn [json_outcome] in H; try discriminate H;
          injection H as <-; (split; [reflexivity|discriminate]).
      + intros [[= ->] H]. destruct e; try reflexivity. now elim (H reason). }
  assert (Hh : forall cfg text case answer,
             html_outcome app cfg tree text case answer = Raise e
             <-> answer = Raise e /\ forall reason, e <> BadTerm reason).
  { intros cfg text case [found|e'].
    - split; [discriminate|intros [[=] _]].
    - split.
      + intros H. destruct e'; cbn [html_outcome] in H; try discriminate H;
          injection H as <-; (split; [reflexivity|discriminate]).
      + intros [[= ->] H]. destruct e; try reflexivity. now elim (H reason). }
  unfold journal.
  destruct (search_cases app req tree)
    as [(Hmem & Hrun)|[(Hmem & Halias & Hrun)
                      |(index & Hmem & Hidx & [(Hjson & Hrun)|(Hhtml & Hrun)])]];
    fold p in Hrun; rewrite Hrun; cbn [fst snd].
  - split; [|reflexivity]. split.
    + intros [= <-]. left. auto.
    + intros [[-> _]|[[_ [H _]]|(index & H & _)]]; [reflexivity|congruence..].
  - split; [|reflexivity]. split.
    + intros [= <-]. right. left. auto.
    + intros [[_ H]|[[-> _]|(index & _ & H & _)]]; [congruence|reflexivity|congruence].
  - rewrite search_json_run. cbn [fst snd].
    split; [|intros [H|H]; congruence].
    rewrite Hj. split.
    + intros [Hres Hbad]. right. right. exists index.
      split; [exact Hmem|]. split; [exact Hidx|]. right. right.
      split; [now left|]. split; assumption.
    + intros [[_ H]|[[_ [_ H]]|(index' & _ & Hidx' & H)]]; [congruence..|].
      assert (index' = index) by congruence. subst index'.
      destruct H as [(H & _)|[(H & _)|(_ & Hres & Hbad)]]; [congruence..|].
      split; assumption.
  - rewrite search_html_run.
    split; [|intros [H|H]; congruence].
    split.
    + intros Hraise. right. right. exists index.
      split; [exact Hmem|]. split; [exact Hidx|].
      destruct (should_redirect req) eqn:Ered.
      * fold (query index) in Hraise.
        destruct (direct_result (query index)) as [[[path line]|]|e'] eqn:Edir;
          cbn [fst] in Hraise.
        -- right. left. split; [exact Hhtml|]. split; [reflexivity|].
           exists path, line. split; [reflexivity|].
           unfold redirect_text in Hraise.
           destruct (iri_to_uri true _) as [uri|e'']; [discriminate Hraise|].
           cbn [rbind] in Hraise. congruence.
        -- right. right. apply Hh in Hraise as [Hres Hbad].
           split; [now right; right|]. split; assumption.
        -- left. split; [exact Hhtml|]. split; [reflexivity|]. congruence.
      * cbn [fst] in Hraise. right. right. apply Hh in Hraise as [Hres Hbad].
        split; [now right; left|]. split; assumption.
    + intros [[_ H]|[[_ [_ H]]|(index' & _ & Hidx' & H)]]; [congruence..|].
      assert (index' = index) by congruence. subst index'.
      fold (query index).
      destruct H as [(_ & Hred & Hdir)
                    |[(_ & Hred & path & line & Hdir & Hconv)
                     |(Hway & Hres & Hbad)]].
      * now rewrite Hred, Hdir.
      * rewrite Hred, Hdir. cbn [fst]. unfold redirect_text.
        now rewrite Hconv.
      * assert (Hout : html_outcome app (config app) tree (query_text p)
                                    (is_case_sensitive p)
                                    (results (query index) (offset p) (limit p))
                       = Raise e) by (apply Hh; split; assumption).
        destruct Hway as [Hway|[Hway|Hway]]; [congruence| |].
        -- now rewrite Hway.
        -- rewrite Hway. now destruct (should_redirect req).
Qed.

Example search_unknown_tree_raises :
  run (search Demo.app (Demo.browser []) "nosuch")
  = (Raise (NotFound (Some "No such tree as nosuch")), []).
Proof. reflexivity. Qed.

Example search_direct_result_failure :
  run (search Demo.app_without_index
              (Demo.browser [("q", "x"); ("redirect", "true")]) "code")
  = (Raise (ValueError "No JSON object could be decoded"),
     [DirectResultAsked (Raise (ValueError "No JSON object could be decoded"))]).
Proof. reflexivity. Qed.

Example search_registered_tree_without_alias :
  let cfg := {| WWW_ROOT := "/dxr"; DEFAULT_TREE := "code";
                TREES := [("code", "The code"); ("docs", "The manual")];
                ES_ALIASES := [("code", "dxr_code")];
                GENERATED_DATE := "2015-01-01"; GOOGLE_ANALYTICS_KEY := "" |} in
  let app := {| App.config := cfg; instance_path := "/srv/dxr";
                es_query := Demo.query; es_folder := fun _ _ => [];
                isdir := fun _ => false; isfile := fun _ => false;
                filter_menu_items := VList [];
                linked_pathname := fun _ _ => VList [];
                icon := fun _ => "unknown"; decode_es_datetime := VStr |} in
  serve (search app (Demo.browser [("q", "x")]) "docs") = Unhandled (KeyError "docs").
Proof. reflexivity. Qed.

(** ** Links rendered into the search page *)

Section QueryStrings.

Lemma split_join (sep : ascii) (l : list string) :
  l <> [] -> Forall (fun s => contains sep s = false) l ->
  split sep (join (String sep "") l) = l.
Proof.
  intros Hne Hall. induction Hall as [|a l Ha Hl IH]; [congruence|].
  destruct l as [|b l].
  - now apply split_absent.
  - change (join (String sep "") (a :: b :: l))
      with (a ++ String sep (join (String sep "") (b :: l))).
    rewrite split_first by assumption. f_equal. apply IH. discriminate.
Qed.

Lemma contains_join (c : ascii) (sep : string) (l : list string) :
  contains c sep = false -> Forall (fun s => contains c s = false) l ->
  contains c (join sep l) = false.
Proof.
  intros Hsep Hall. induction Hall as [|a l Ha Hl IH]; [reflexivity|].
  destruct l as [|b l]; [exact Ha|].
  change (join sep (a :: b :: l)) with (a ++ sep ++ join sep (b :: l)).
  now rewrite !contains_app, Ha, Hsep, IH.
Qed.

Lemma encode_pair_avoids (c : ascii) (kv : string * string) :
  always_safe c = false -> Ascii.eqb c " " = false ->
  Ascii.eqb c "%" = false -> Ascii.eqb c "+" = false -> Ascii.eqb c "=" = false ->
  contains c (encode_pair kv) = false.
Proof.
  intros H1 H2 H3 H4 H5. unfold encode_pair.
  rewrite !contains_app, !url_quote_plus_avoids by assumption.
  cbn [contains orb]. now rewrite Ascii.eqb_sym, H5.
Qed.

Lemma decode_encode_pair (kv : string * string) :
  decode_pair (encode_pair kv) = kv.
Proof.
  destruct kv as [k v]. unfold decode_pair, encode_pair. cbn [fst snd].
  change (url_quote_plus k ++ "=" ++ url_quote_plus v)
    with (url_quote_plus k ++ String "=" (url_quote_plus v)).
  rewrite split1_first by now apply url_quote_plus_avoids.
  now rewrite !url_unquote_quote_plus.
Qed.

Lemma encode_pair_nonempty (kv : string * string) :
  String.eqb (encode_pair kv) "" = false.
Proof.
  unfold encode_pair. destruct (url_quote_plus (fst kv)); reflexivity.
Qed.

Lemma url_encode_pairs (params : list (string * string)) :
  url_encode params = join "&" (map encode_pair params).
Proof.
  unfold url_encode. f_equal. apply map_ext. now intros [k v].
Qed.

(** Decoding a query string gives back the parameters it was encoded
    from, whatever bytes they hold. *)
Lemma url_decode_encode (params : list (string * string)) :
  url_decode (url_encode params) = params.
Proof.
  rewrite url_encode_pairs. unfold url_decode.
  destruct params as [|kv params]; [reflexivity|].
  rewrite split_join.
  - induction (kv :: params) as [|x l IH]; [reflexivity|].
    cbn [map filter]. rewrite encode_pair_nonempty. cbn [negb map].
    now rewrite decode_encode_pair, IH.
  - discriminate.
  - apply Forall_forall. intros s Hs. apply in_map_iff in Hs as [x [<- _]].
    now apply encode_pair_avoids.
Qed.

Lemma link_params_search_url (root t : string) (args : list (string * string)) :
  args <> [] -> avoids "?#" root = true ->
  link_params (url_for root ep_search t None args) = args.
Proof.
  intros Hne Hroot.
  assert (Hq : contains "?" root = false)
    by (apply (avoids_contains "?#" root "?" Hroot); cbn; auto).
  assert (Hf : contains "#" root = false)
    by (apply (avoids_contains "?#" root "#" Hroot); cbn; auto).
  assert (Hshape : url_for root ep_search t None args
                   = link_base root t ++ String "?" (url_encode args)).
  { unfold url_for, link_base. destruct args; [congruence|].
    cbn [rule_suffix]. now rewrite !append_assoc. }
  rewrite Hshape. unfold link_params.
  rewrite (split1_absent "#").
  2:{ rewrite contains_app,
        (link_base_avoids "#" root t Hf eq_refl eq_refl eq_refl eq_refl).
      cbn [contains orb]. change (Ascii.eqb "?" "#") with false. cbn iota.
      rewrite url_encode_pairs. apply contains_join; [reflexivity|].
      apply Forall_forall. intros s Hs. apply in_map_iff in Hs as [x [<- _]].
      now apply encode_pair_avoids. }
  cbn [fst].
  rewrite split1_first
    by exact (link_base_avoids "?" root t Hq eq_refl eq_refl eq_refl eq_refl).
  apply url_decode_encode.
Qed.

End QueryStrings.

(** X11.  The search link handed to the search and error templates
    leads to a request for the same query text with [redirect=false], so
    following it never ends in a direct-result redirect; it does not carry
    the case flag, so the request it leads to is case-insensitive whatever
    the current query is. *)
Theorem search_url_keeps_text_drops_case
        (app : Application) (cfg : Config) (tree text : string) (case : bool)
        (accept : Accept) :
  avoids "?#" (WWW_ROOT cfg) = true ->
  exists url,
    get (template_vars app cfg tree text case) "search_url" = Some (VStr url)
    /\ link_params url = [("q", text); ("redirect", "false")]
    /\ should_redirect {| values := link_params url; accept_mimetypes := accept |}
       = false
    /\ query_text (normalize (link_params url)) = text
    /\ is_case_sensitive (normalize (link_params url)) = false.
Proof.
  intros Hroot. eexists. split; [reflexivity|].
  rewrite link_params_search_url by (discriminate || assumption).
  repeat split.
Qed.

Lemma search_url_keeps_text_drops_case_demo :
  exists url,
    get (template_vars Demo.app Demo.config "code" "Main" true) "search_url"
    = Some (VStr url)
    /\ link_params url = [("q", "Main"); ("redirect", "false")]
    /\ is_case_sensitive (normalize (link_params url)) = false.
Proof.
  destruct (search_url_keeps_text_drops_case
              Demo.app Demo.config "code" "Main" true [] eq_refl)
    as (url & H1 & H2 & _ & _ & H5).
  exists url. repeat split; assumption.
Defined.

(** ** Prerendered pages stay inside the tree's folder *)

Section Traversal.

Lemma split_segments (sep : ascii) (s : string) :
  Forall (fun seg => contains sep seg = false) (split sep s).
Proof.
  induction s as [|a s IH]; cbn [split]; [repeat constructor|].
  destruct (Ascii.eqb a sep) eqn:E; [now constructor|].
  destruct (split sep s) as [|seg segs].
  - constructor; [cbn; now rewrite E|constructor].
  - inversion IH as [|? ? Hseg Hsegs]; subst.
    constructor; [cbn; now rewrite E|assumption].
Qed.

Lemma In_removelast {A} (x : A) (l : list A) : In x (removelast l) -> In x l.
Proof.
  induction l as [|a l IH]; [auto|]. cbn.
  destruct l as [|b l]; [intros []|].
  intros [H|H]; [now left|right; now apply IH].
Qed.

Lemma hd_removelast {A} (d : A) (l : list A) :
  removelast l <> [] -> hd d (removelast l) = hd d l.
Proof. destruct l as [|a [|b l]]; cbn; congruence. Qed.

Lemma last_In {A} (d : A) (l : list A) : l <> [] -> In (last l d) l.
Proof.
  intros H. destruct (exists_last H) as [l' [a ->]].
  rewrite last_last. apply in_or_app. right. now left.
Qed.

(** In a relative path being normalized, [..] components can only pile
    up at the front. *)
Lemma normpath_comps_dots_first (comps new_comps : list string) :
  (In ".." new_comps -> hd "" new_comps = "..") ->
  In ".." (normpath_comps false comps new_comps) ->
  hd "" (normpath_comps false comps new_comps) = "..".
Proof.
  revert new_comps. induction comps as [|comp comps IH]; intros new_comps Hnew;
    cbn [normpath_comps]; [exact Hnew|].
  destruct (String.eqb comp "" || String.eqb comp "."); [now apply IH|].
  destruct (String.eqb_spec comp "..") as [->|Hcomp]; cbn [negb orb andb].
  - destruct new_comps as [|c cs].
    + apply IH. reflexivity.
    + destruct (String.eqb_spec (last (c :: cs) "") "..") as [Hlast|Hlast].
      * apply IH. intros _. cbn [List.app hd]. apply Hnew.
        rewrite <- Hlast. apply last_In. discriminate.
      * apply IH. intros Hin.
        rewrite hd_removelast by (intros E; rewrite E in Hin; destruct Hin).
        apply Hnew. now apply In_removelast.
  - apply IH. intros Hin. apply in_app_or in Hin as [Hin|[Hin|[]]]; [|congruence].
    destruct new_comps as [|c cs]; [destruct Hin|]. cbn [List.app hd].
    now apply Hnew.
Qed.

Lemma normpath_comps_Forall (P : string -> Prop) (b : bool)
      (comps new_comps : list string) :
  Forall P comps -> Forall P new_comps ->
  Forall P (normpath_comps b comps new_comps).
Proof.
  intros Hcomps. revert new_comps.
  induction Hcomps as [|comp comps Hc _ IH]; intros new_comps Hnew;
    cbn [normpath_comps]; [exact Hnew|].
  destruct (_ || _); [now apply IH|].
  destruct (_ || _ || _); apply IH.
  - apply Forall_app. split; [assumption|now constructor].
  - apply Forall_forall. intros x Hx. apply In_removelast in Hx.
    rewrite Forall_forall in Hnew. auto.
Qed.

(** A normalized path that [safe_join] lets through has no [..]
    component. *)
Lemma normpath_safe (p : string) :
  startswith (normpath p) "/" = false ->
  normpath p <> ".." ->
  startswith (normpath p) "../" = false ->
  ~ In ".." (split "/" (normpath p)).
Proof.
  unfold normpath.
  destruct (String.eqb p ""); [intros _ _ _ [[=]|[]]|].
  destruct (startswith p "/").
  - assert (Hslash : forall s, startswith (String "/" s) "/" = true).
    { intros s. unfold startswith. cbn [String.prefix].
      destruct (ascii_dec "/" "/"); [now destruct s|congruence]. }
    destruct (startswith p "//" && negb (startswith p "///"));
      cbn [append String.eqb Ascii.eqb]; rewrite Hslash; discriminate.
  - cbn [Nat.eqb negb].
    set (comps := normpath_comps false (split "/" p) []).
    assert (Hdots : In ".." comps -> hd "" comps = "..")
      by (apply normpath_comps_dots_first; intros []).
    assert (Hseg : Forall (fun seg => contains "/" seg = false) comps)
      by (apply normpath_comps_Forall; [apply split_segments|constructor]).
    destruct (String.eqb_spec (join "/" comps) "") as [E|E];
      [intros _ _ _ [[=]|[]]|].
    intros _ Hne Hup.
    assert (Hcomps : comps <> []) by (intros E'; rewrite E' in E; now apply E).
    rewrite (split_join "/" comps Hcomps Hseg).
    intros Hin. specialize (Hdots Hin).
    destruct comps as [|c [|c' cs]]; [congruence| |]; cbn [hd] in Hdots; subst c.
    + now apply Hne.
    + change (join "/" (".." :: c' :: cs)) with ("../" ++ join "/" (c' :: cs)) in Hup.
      unfold startswith in Hup. rewrite prefix_append in Hup. discriminate Hup.
Qed.

Lemma path_join_prefix (a b : string) :
  startswith b "/" = false -> String.prefix a (path_join a b) = true.
Proof.
  intros H. unfold path_join. rewrite H.
  destruct (_ || _); apply prefix_append.
Qed.

End Traversal.

(** X12.  A prerendered page that [browse] serves lies inside the
    requested tree's folder: its file name is that folder joined with the
    normalized form of the requested path plus [.html], a relative path
    without any [..] component.  The file exists, and the requested path is
    not a directory. *)
Theorem browse_serves_inside_tree_folder
        (app : Application) (tree path filename : string) (code : Z) :
  fst (run (browse app tree path))
  = Ok {| payload := File filename; status := code |} ->
  filename = path_join (_tree_folder app tree) (normpath (path ++ ".html"))
  /\ String.prefix (_tree_folder app tree) filename = true
  /\ startswith (normpath (path ++ ".html")) "/" = false
  /\ ~ In ".." (split "/" (normpath (path ++ ".html")))
  /\ isfile app filename = true
  /\ isdir app (path_join (_tree_folder app tree) path) = false.
Proof.
  intros H.
  assert (Hfile : browse_file app tree path
                  = Ok {| payload := File filename; status := code |}).
  { destruct (browse_cases app tree path)
      as [(f & Hf & Hrun)|(_ & [(_ & Hrun)|(index & _ & _ & Hres)])].
    - rewrite Hrun in H. cbn [fst] in H. now rewrite Hf.
    - rewrite Hrun in H. discriminate H.
    - destruct Hres as [(_ & Hrun)|[(_ & _ & Hrun)|(_ & _ & Hrun)]];
        rewrite Hrun in H; discriminate H. }
  clear H. unfold browse_file, _html_file_path, send_from_directory, safe_join in Hfile.
  destruct (isdir app _) eqn:Edir; [discriminate|]. cbn [rbind] in Hfile.
  destruct (startswith (normpath (path ++ ".html")) "/") eqn:Eabs;
    [discriminate|].
  destruct (String.eqb_spec (normpath (path ++ ".html")) "..") as [|Eup];
    [discriminate|].
  destruct (startswith (normpath (path ++ ".html")) "../") eqn:Eups;
    [discriminate|].
  cbn [orb rbind] in Hfile.
  destruct (isfile app _) eqn:Efile; [|discriminate].
  cbn [negb] in Hfile. injection Hfile as <- _.
  split; [reflexivity|]. split; [now apply path_join_prefix|].
  split; [reflexivity|]. split; [now apply normpath_safe|].
  split; [assumption|reflexivity].
Qed.

Lemma browse_serves_inside_tree_folder_demo :
  fst (run (browse Demo.app "code" "src/./main.c"))
  = Ok {| payload := File "/srv/dxr/trees/code/src/main.c.html"; status := 200 |}
  /\ String.prefix "/srv/dxr/trees/code" "/srv/dxr/trees/code/src/main.c.html" = true
  /\ ~ In ".." (split "/" (normpath ("src/./main.c" ++ ".html"))).
Proof.
  assert (H : fst (run (browse Demo.app "code" "src/./main.c"))
              = Ok {| payload := File "/srv/dxr/trees/code/src/main.c.html";
                      status := 200 |}) by reflexivity.
  destruct (browse_serves_inside_tree_folder Demo.app "code" "src/./main.c" _ _ H)
    as (_ & Hprefix & _ & Hdots & _).
  split; [exact H|]. split; [exact Hprefix|exact Hdots].
Defined.

Example browse_parent_folder_refused :
  serve (browse Demo.app "code" "../code/src/main.c")
  = Responded {| payload := ErrorPage None; status := 404 |}.
Proof. reflexivity. Qed.

(** ** Entries without a path *)

(** X13.  One entry of the index's answer whose path list is empty is
    enough to make the folder listing fail: [browse] raises [IndexError],
    which no handler catches. *)
Theorem browse_entry_without_path
        (app : Application) (tree path index : string) (f : FolderDoc) :
  browse_file app tree path = Raise (NotFound None) ->
  get (ES_ALIASES (config app)) tree = Some index ->
  In f (es_folder app index path) ->
  f_path f = [] ->
  serve (browse app tree path) = Unhandled IndexError.
Proof.
  intros Hfile Hidx Hin Hpath.
  assert (Hrows : folder_rows app tree (es_folder app index path) = Raise IndexError).
  { rewrite folder_rows_decide.
    destruct (forallb _ (es_folder app index path)) eqn:E; [|reflexivity].
    rewrite forallb_forall in E. specialize (E f Hin).
    rewrite Hpath in E. discriminate E. }
  unfold serve.
  destruct (browse_cases app tree path)
    as [(f' & Hf & _)|(_ & [(Hnone & _)|(index' & Hidx' & _ & Hres)])];
    [congruence|congruence|].
  assert (index' = index) by congruence. subst index'.
  destruct Hres as [(Hempty & _)|[(_ & _ & Hrun)|(_ & Hok & _)]].
  - rewrite Hempty in Hin. destruct Hin.
  - now rewrite Hrun.
  - congruence.
Qed.

Lemma browse_entry_without_path_demo :
  let app :=
      {| App.config := Demo.config; instance_path := "/srv/dxr";
         es_query := Demo.query;
         es_folder := fun _ _ =>
           [Demo.readme;
            {| f_name := "LICENSE"; f_is_folder := false; f_modified := None;
               f_size := None; f_path := [] |}];
         isdir := fun _ => false; isfile := fun _ => false;
         filter_menu_items := VList []; linked_pathname := fun _ _ => VList [];
         icon := fun _ => "unknown"; decode_es_datetime := VStr |} in
  serve (browse app "code" "") = Unhandled IndexError.
Proof.
  intros app.
  refine (browse_entry_without_path app "code" "" "dxr_code"
            {| f_name := "LICENSE"; f_is_folder := false; f_modified := None;
               f_size := None; f_path := [] |} eq_refl eq_refl _ eq_refl).
  right. left. reflexivity.
Defined.

(** ** [parallel] and [browse] *)


